(** * Anomaly detection over a metric summary (anomaly_detector.py, config.py)

    A shallow embedding of [AnomalyDetector]: the rule checks of [detect],
    the severity classifier [_calculate_severity], the constructor
    [__init__] and the default tables of config.py.

    Modelling choices.
    - A Python value that the summary can hold is a [pyval].  Numbers (int,
      float, bool) are identified by their numeric value, an exact rational
      [Q]; NaN, the infinities and float rounding are outside the model.
    - A dict is a [gmap] with string keys; [d[k]] on a missing key raises
      [KeyError], [d.get(k)] gives [None].
    - An exception is a value of [exn]; code that can raise lives in the
      [result] monad, and evaluation order follows the source so that the
      first exception raised by the source is the one returned here.
    - [anomalies] and [severity_score], the two locals that [detect]
      mutates, are threaded through the checks as a pair. *)

From Stdlib Require Import Ascii QArith Qminmax Qabs Lqa.
From stdpp Require Import base strings gmap list pretty.

Local Open Scope string_scope.
Local Open Scope list_scope.
Local Open Scope Q_scope.

(** ** Exceptions and the result monad *)

Inductive exn :=
| KeyError (k : string)
| TypeError
| AttributeError.

Inductive result (A : Type) :=
| Ok (a : A)
| Raise (e : exn).
Arguments Ok {A} a.
Arguments Raise {A} e.

#[global] Instance result_ret : MRet result := fun A a => Ok a.
#[global] Instance result_bind : MBind result := fun A B f m =>
  match m with
  | Ok a => f a
  | Raise e => Raise e
  end.

Definition is_ok {A} (r : result A) : bool :=
  match r with Ok _ => true | Raise _ => false end.

(** ** Python values *)

#[warnings="-register-all"]
Inductive pyval :=
| VNone
| VNum (q : Q)
| VStr (s : string)
| VList (l : list pyval)
| VDict (d : gmap string pyval).

(** [a < b] on numbers, as a boolean. *)
Definition Qltb (a b : Q) : bool := negb (Qle_bool b a).

(** [d.get(k)] and [d.get(k, dflt)]. *)
Definition dict_get (d : gmap string pyval) (k : string) : pyval :=
  default VNone (d !! k).
Definition dict_get_default (d : gmap string pyval) (k : string) (dflt : pyval) : pyval :=
  default dflt (d !! k).

(** [d[k]] on a configuration dict. *)
Definition subscript (d : gmap string Q) (k : string) : result Q :=
  match d !! k with
  | Some v => Ok v
  | None => Raise (KeyError k)
  end.

(** [v is not None]. *)
Definition is_not_none (v : pyval) : bool :=
  match v with VNone => false | _ => true end.

(** [v == n] for a number [n]: never raises, false across types. *)
Definition py_eq_num (v : pyval) (n : Q) : bool :=
  match v with VNum q => Qeq_bool q n | _ => false end.

(** [v > t] for a number [t]: ordering a non-number against a number
    raises [TypeError]. *)
Definition py_gt (v : pyval) (t : Q) : result bool :=
  match v with
  | VNum q => Ok (Qltb t q)
  | _ => Raise TypeError
  end.

(** The number held by [v]; arithmetic, [<] and the [f] format all raise
    [TypeError] on the values that [py_gt] rejects. *)
Definition to_num (v : pyval) : result Q :=
  match v with
  | VNum q => Ok q
  | _ => Raise TypeError
  end.

(** Truth value of [v] in a condition. *)
Definition py_truthy (v : pyval) : bool :=
  match v with
  | VNone => false
  | VNum q => negb (Qeq_bool q 0)
  | VStr s => negb (bool_decide (s = ""))
  | VList l => negb (bool_decide (length l = 0%nat))
  | VDict d => negb (bool_decide (size d = 0%nat))
  end.

(** [isinstance(v, list)]. *)
Definition is_list (v : pyval) : bool :=
  match v with VList _ => true | _ => false end.

(** The receiver of [v.get(...)]: only a dict has the method. *)
Definition as_dict (v : pyval) : result (gmap string pyval) :=
  match v with
  | VDict d => Ok d
  | _ => Raise AttributeError
  end.

(** [for x in l: body], the body threading the state and possibly raising. *)
Fixpoint for_each {A S : Type} (body : A → S → result S) (l : list A) (st : S) : result S :=
  match l with
  | [] => Ok st
  | x :: l' => st' ← body x st; for_each body l' st'
  end.

(** ** Fixed-point rendering of an exact rational

    [format_fixed p x] writes [x] with [p] decimals, rounding the exact
    value half to even and printing the sign of every negative value.  It
    is one possible reading of [format(x, ".pf")], used to run the model;
    the statements below hold for any rendering. *)

Definition round_half_even (q : Q) : Z :=
  let n := Qnum q in
  let d := Z.pos (Qden q) in
  let fl := (n / d)%Z in
  let r := (n mod d)%Z in
  match (2 * r ?= d)%Z with
  | Lt => fl
  | Gt => (fl + 1)%Z
  | Eq => if Z.even fl then fl else (fl + 1)%Z
  end.

Fixpoint zeros (n : nat) : string :=
  match n with
  | O => ""
  | S n' => String "0"%char (zeros n')
  end.

Definition format_fixed (p : nat) (x : Q) : string :=
  let scale := (10 ^ Z.of_nat p)%Z in
  let m := round_half_even (Qabs x * inject_Z scale) in
  let frac := pretty (m mod scale)%Z in
  (if Qltb x 0 then "-" else "") +:+ pretty (m / scale)%Z +:+ "." +:+
  zeros (p - String.length frac) +:+ frac.

(** A rendering of the values that are not strings, by kind. *)
Definition repr_kind (v : pyval) : string :=
  match v with
  | VNone => "None"
  | VNum _ => "<number>"
  | VStr s => s
  | VList _ => "<list>"
  | VDict _ => "<dict>"
  end.

(** ** config.py: the default tables

    Each threshold is read from an environment variable with a default; the
    tables below are the ones obtained when no variable is set. *)

Definition THRESHOLDS : gmap string Q :=
  {[ "cpu_usage" := 80;
     "memory_usage" := 85;
     "swap_usage" := 50;
     "disk_usage" := 90;
     "iowait" := 20;
     "load1_per_cpu" := 2;
     "network_errors_per_sec" := 10;
     "tcp_retrans_per_sec" := 50 ]}.

Definition SEVERITY_WEIGHTS : gmap string Q :=
  {[ "system_down" := 100;
     "cpu_high" := 30;
     "iowait_high" := 20;
     "load_extreme" := 15;
     "memory_high" := 25;
     "swap_high" := 20;
     "disk_high" := 20;
     "fs_readonly" := 50;
     "network_errors" := 15;
     "tcp_retrans" := 15;
     "tcp_overflow" := 20 ]}.

Definition SEVERITY_THRESHOLDS : gmap string Q :=
  {[ "critical" := 80;
     "high" := 40;
     "medium" := 20;
     "low" := 1 ]}.

(** ** anomaly_detector.py *)

Definition CRITICAL_USAGE_THRESHOLD : Q := 95.

(** The object state set up by [__init__]. *)
Record AnomalyDetector := {
  thresholds : gmap string Q;
  weights : gmap string Q;
  severity_thresholds : gmap string Q
}.

(** [x or dflt] for an optional dict argument: [None] and the empty dict
    are both false. *)
Definition dict_or (x : option (gmap string Q)) (dflt : gmap string Q) : gmap string Q :=
  match x with
  | None => dflt
  | Some d => if bool_decide (size d = 0%nat) then dflt else d
  end.

Definition __init__ (thresholds weights severity_thresholds : option (gmap string Q))
  : AnomalyDetector :=
  {| thresholds := dict_or thresholds THRESHOLDS;
     weights := dict_or weights SEVERITY_WEIGHTS;
     severity_thresholds := dict_or severity_thresholds SEVERITY_THRESHOLDS |}.

(** One element of the [anomalies] list; [threshold] and [mountpoint] are
    the keys that only some rules set. *)
Module Anomaly.
Record t := {
  metric : string;
  message : string;
  severity : string;
  value : Q;
  threshold : option Q;
  mountpoint : option pyval
}.
End Anomaly.

(** The dict returned by [detect]. *)
Record DetectionResult := {
  is_anomaly : bool;
  anomalies : list Anomaly.t;
  severity : string;
  severity_score : Q;
  anomaly_count : nat
}.

(** The two locals of [detect]: [anomalies] and [severity_score]. *)
Definition state : Type := list Anomaly.t * Q.

(** [x is not None and x > self.thresholds[k]]: the subscript is evaluated
    only when [x] is not [None], and before the comparison. *)
Definition above_threshold (self : AnomalyDetector) (x : pyval) (k : string) : result bool :=
  if is_not_none x then th ← subscript (thresholds self) k; py_gt x th
  else Ok false.

(** ["warning" if usage < CRITICAL_USAGE_THRESHOLD else "critical"] *)
Definition usage_tag (usage : Q) : string :=
  if Qltb usage CRITICAL_USAGE_THRESHOLD then "warning" else "critical".

(** [_calculate_severity]: each tier is looked up only when the ones above
    it did not match. *)
Definition _calculate_severity (self : AnomalyDetector) (score : Q) : result string :=
  c ← subscript (severity_thresholds self) "critical";
  if Qle_bool c score then Ok "critical" else
  h ← subscript (severity_thresholds self) "high";
  if Qle_bool h score then Ok "high" else
  m ← subscript (severity_thresholds self) "medium";
  if Qle_bool m score then Ok "medium" else
  l ← subscript (severity_thresholds self) "low";
  if Qle_bool l score then Ok "low" else
  Ok "normal".

Section Detect.

(** The two built-ins of Python that render values into the messages are
    taken as given: [format_f p x] is [format(x, ".pf")] for a number [x], and
    [repr v] is [str(v)] for a value that is not a string. *)
Variable format_f : nat → Q → string.
Variable repr : pyval → string.

(** [f"{v}"] *)
Definition py_str (v : pyval) : string :=
  match v with
  | VStr s => s
  | _ => repr v
  end.

(** *** The checks of [detect], in source order *)

(** 観測健全性チェック *)
Definition check_up (self : AnomalyDetector) (summary : gmap string pyval) (st : state)
  : result state :=
  let '(anomalies, severity_score) := st in
  if py_eq_num (dict_get summary "up") 0 then
    let anomalies := anomalies ++ [
      {| Anomaly.metric := "up";
         Anomaly.message := "監視対象がダウンしています";
         Anomaly.severity := "critical";
         Anomaly.value := 0;
         Anomaly.threshold := None;
         Anomaly.mountpoint := None |} ] in
    w ← subscript (weights self) "system_down";
    Ok (anomalies, severity_score + w)
  else Ok st.

(** CPUチェック *)
Definition check_cpu (self : AnomalyDetector) (summary : gmap string pyval) (st : state)
  : result state :=
  let '(anomalies, severity_score) := st in
  let cpu_usage := dict_get summary "cpu_usage" in
  hit ← above_threshold self cpu_usage "cpu_usage";
  if (hit : bool) then
    v ← to_num cpu_usage;
    th ← subscript (thresholds self) "cpu_usage";
    let anomalies := anomalies ++ [
      {| Anomaly.metric := "cpu_usage";
         Anomaly.message := "CPU使用率が高い (" +:+ format_f 1 v +:+ "%)";
         Anomaly.severity := usage_tag v;
         Anomaly.value := v;
         Anomaly.threshold := Some th;
         Anomaly.mountpoint := None |} ] in
    let excess := (v - th) / 2 in
    w ← subscript (weights self) "cpu_high";
    Ok (anomalies, severity_score + Qmin w excess)
  else Ok st.

(** iowaitチェック *)
Definition check_iowait (self : AnomalyDetector) (summary : gmap string pyval) (st : state)
  : result state :=
  let '(anomalies, severity_score) := st in
  let iowait := dict_get summary "cpu_iowait" in
  hit ← above_threshold self iowait "iowait";
  if (hit : bool) then
    v ← to_num iowait;
    th ← subscript (thresholds self) "iowait";
    let anomalies := anomalies ++ [
      {| Anomaly.metric := "cpu_iowait";
         Anomaly.message := "I/O待ちが多い (" +:+ format_f 1 v +:+ "%)";
         Anomaly.severity := "warning";
         Anomaly.value := v;
         Anomaly.threshold := Some th;
         Anomaly.mountpoint := None |} ] in
    let excess := v - th in
    w ← subscript (weights self) "iowait_high";
    Ok (anomalies, severity_score + Qmin w excess)
  else Ok st.

(** load averageチェック: the limit is the local constant
    [extreme_load_threshold = 10], not a configured threshold. *)
Definition check_load1 (self : AnomalyDetector) (summary : gmap string pyval) (st : state)
  : result state :=
  let '(anomalies, severity_score) := st in
  let load1 := dict_get summary "load1" in
  if is_not_none load1 then
    let extreme_load_threshold := 10 in
    hit ← py_gt load1 extreme_load_threshold;
    if (hit : bool) then
      v ← to_num load1;
      let anomalies := anomalies ++ [
        {| Anomaly.metric := "load1";
           Anomaly.message := "Load Average (1分) が高い (" +:+ format_f 2 v +:+ ")";
           Anomaly.severity := "warning";
           Anomaly.value := v;
           Anomaly.threshold := None;
           Anomaly.mountpoint := None |} ] in
      w ← subscript (weights self) "load_extreme";
      Ok (anomalies, severity_score + Qmin w v)
    else Ok st
  else Ok st.

(** メモリチェック *)
Definition check_memory (self : AnomalyDetector) (summary : gmap string pyval) (st : state)
  : result state :=
  let '(anomalies, severity_score) := st in
  let memory_usage := dict_get summary "memory_usage" in
  hit ← above_threshold self memory_usage "memory_usage";
  if (hit : bool) then
    v ← to_num memory_usage;
    th ← subscript (thresholds self) "memory_usage";
    let anomalies := anomalies ++ [
      {| Anomaly.metric := "memory_usage";
         Anomaly.message := "メモリ使用率が高い (" +:+ format_f 1 v +:+ "%)";
         Anomaly.severity := usage_tag v;
         Anomaly.value := v;
         Anomaly.threshold := Some th;
         Anomaly.mountpoint := None |} ] in
    let excess := (v - th) / 2 in
    w ← subscript (weights self) "memory_high";
    Ok (anomalies, severity_score + Qmin w excess)
  else Ok st.

(** スワップチェック *)
Definition check_swap (self : AnomalyDetector) (summary : gmap string pyval) (st : state)
  : result state :=
  let '(anomalies, severity_score) := st in
  let swap_usage := dict_get summary "swap_usage" in
  hit ← above_threshold self swap_usage "swap_usage";
  if (hit : bool) then
    v ← to_num swap_usage;
    th ← subscript (thresholds self) "swap_usage";
    let anomalies := anomalies ++ [
      {| Anomaly.metric := "swap_usage";
         Anomaly.message := "スワップ使用率が高い (" +:+ format_f 1 v +:+ "%)";
         Anomaly.severity := "warning";
         Anomaly.value := v;
         Anomaly.threshold := Some th;
         Anomaly.mountpoint := None |} ] in
    let excess := v - th in
    w ← subscript (weights self) "swap_high";
    Ok (anomalies, severity_score + Qmin w excess)
  else Ok st.

(** ファイルシステムチェック: the body of [for fs in fs_top3]. *)
Definition check_fs_entry (self : AnomalyDetector) (fs : pyval) (st : state) : result state :=
  let '(anomalies, severity_score) := st in
  entry ← as_dict fs;
  let usage := dict_get entry "value" in
  hit ← above_threshold self usage "disk_usage";
  if (hit : bool) then
    labels ← as_dict (dict_get_default entry "labels" (VDict ∅));
    let mountpoint := dict_get_default labels "mountpoint" (VStr "unknown") in
    v ← to_num usage;
    th ← subscript (thresholds self) "disk_usage";
    let anomalies := anomalies ++ [
      {| Anomaly.metric := "fs_usage";
         Anomaly.message :=
           "ディスク使用率が高い (" +:+ py_str mountpoint +:+ ": " +:+ format_f 1 v +:+ "%)";
         Anomaly.severity := usage_tag v;
         Anomaly.value := v;
         Anomaly.threshold := Some th;
         Anomaly.mountpoint := Some mountpoint |} ] in
    let excess := (v - th) / 2 in
    w ← subscript (weights self) "disk_high";
    Ok (anomalies, severity_score + Qmin w excess)
  else Ok st.

(** [if fs_top3 and isinstance(fs_top3, list): for fs in fs_top3: ...] *)
Definition check_fs (self : AnomalyDetector) (summary : gmap string pyval) (st : state)
  : result state :=
  let fs_top3 := dict_get summary "fs_usage_top3" in
  if py_truthy fs_top3 && is_list fs_top3 then
    match fs_top3 with
    | VList l => for_each (check_fs_entry self) l st
    | _ => Ok st
    end
  else Ok st.

(** 読み取り専用ファイルシステムチェック *)
Definition check_fs_readonly (self : AnomalyDetector) (summary : gmap string pyval) (st : state)
  : result state :=
  let '(anomalies, severity_score) := st in
  hit ← py_gt (dict_get_default summary "fs_readonly" (VNum 0)) 0;
  if (hit : bool) then
    let anomalies := anomalies ++ [
      {| Anomaly.metric := "fs_readonly";
         Anomaly.message := "読み取り専用のファイルシステムが存在";
         Anomaly.severity := "critical";
         Anomaly.value := 1;
         Anomaly.threshold := None;
         Anomaly.mountpoint := None |} ] in
    w ← subscript (weights self) "fs_readonly";
    Ok (anomalies, severity_score + w)
  else Ok st.

(** ネットワークエラー・ドロップチェック *)
Definition check_network (self : AnomalyDetector) (summary : gmap string pyval) (st : state)
  : result state :=
  let '(anomalies, severity_score) := st in
  let net_err := dict_get_default summary "network_err_per_sec" (VNum 0) in
  th ← subscript (thresholds self) "network_errors_per_sec";
  hit ← py_gt net_err th;
  if (hit : bool) then
    v ← to_num net_err;
    let anomalies := anomalies ++ [
      {| Anomaly.metric := "network_err_per_sec";
         Anomaly.message := "ネットワークエラーが多い (" +:+ format_f 1 v +:+ "/秒)";
         Anomaly.severity := "warning";
         Anomaly.value := v;
         Anomaly.threshold := Some th;
         Anomaly.mountpoint := None |} ] in
    let excess := v - th in
    w ← subscript (weights self) "network_errors";
    Ok (anomalies, severity_score + Qmin w excess)
  else Ok st.

(** TCP再送チェック *)
Definition check_tcp_retrans (self : AnomalyDetector) (summary : gmap string pyval) (st : state)
  : result state :=
  let '(anomalies, severity_score) := st in
  let tcp_retrans := dict_get_default summary "tcp_retrans_per_sec" (VNum 0) in
  th ← subscript (thresholds self) "tcp_retrans_per_sec";
  hit ← py_gt tcp_retrans th;
  if (hit : bool) then
    v ← to_num tcp_retrans;
    let anomalies := anomalies ++ [
      {| Anomaly.metric := "tcp_retrans_per_sec";
         Anomaly.message := "TCP再送が多い (" +:+ format_f 1 v +:+ "/秒)";
         Anomaly.severity := "warning";
         Anomaly.value := v;
         Anomaly.threshold := Some th;
         Anomaly.mountpoint := None |} ] in
    let excess := (v - th) / 5 in
    w ← subscript (weights self) "tcp_retrans";
    Ok (anomalies, severity_score + Qmin w excess)
  else Ok st.

(** TCPリッスンオーバーフローチェック *)
Definition check_tcp_overflow (self : AnomalyDetector) (summary : gmap string pyval) (st : state)
  : result state :=
  let '(anomalies, severity_score) := st in
  let tcp_overflow := dict_get_default summary "tcp_listen_overflow_per_sec" (VNum 0) in
  hit ← py_gt tcp_overflow 0;
  if (hit : bool) then
    v ← to_num tcp_overflow;
    let anomalies := anomalies ++ [
      {| Anomaly.metric := "tcp_listen_overflow_per_sec";
         Anomaly.message := "TCPリッスンキューがあふれている (" +:+ format_f 1 v +:+ "/秒)";
         Anomaly.severity := "warning";
         Anomaly.value := v;
         Anomaly.threshold := None;
         Anomaly.mountpoint := None |} ] in
    w ← subscript (weights self) "tcp_overflow";
    Ok (anomalies, severity_score + Qmin w (v * 2))
  else Ok st.

(** The checks in the order [detect] runs them. *)
Definition checks : list (AnomalyDetector → gmap string pyval → state → result state) :=
  [ check_up; check_cpu; check_iowait; check_load1; check_memory; check_swap;
    check_fs; check_fs_readonly; check_network; check_tcp_retrans; check_tcp_overflow ].

(** Lines 38-208 of [detect]: from [anomalies = []] and [severity_score = 0]
    through the eleven checks; the result is the list of records and the
    raw, unclamped score. *)
Definition run_checks (self : AnomalyDetector) (summary : gmap string pyval) : result state :=
  for_each (fun chk st => chk self summary st) checks ([], 0).

(** [detect]: the checks, then 総合判定. *)
Definition detect (self : AnomalyDetector) (summary : gmap string pyval)
  : result DetectionResult :=
  '(anomalies, severity_score) ← run_checks self summary;
  let is_anomaly := bool_decide (0 < length anomalies)%nat in
  severity ← _calculate_severity self severity_score;
  Ok {| is_anomaly := is_anomaly;
        anomalies := anomalies;
        severity := severity;
        severity_score := Qmin 100 severity_score;
        anomaly_count := length anomalies |}.

(** ** Vocabulary of the statements *)

(** The detector built with no argument, as main.py does. *)
Definition default_detector : AnomalyDetector := __init__ None None None.

(** The tiers that have a configured minimum, highest first. *)
Definition tier_order : list string := ["critical"; "high"; "medium"; "low"].

(** The fixed order normal < low < medium < high < critical. *)
Definition tier_rank (t : string) : option nat :=
  if bool_decide (t = "normal") then Some 0%nat
  else if bool_decide (t = "low") then Some 1%nat
  else if bool_decide (t = "medium") then Some 2%nat
  else if bool_decide (t = "high") then Some 3%nat
  else if bool_decide (t = "critical") then Some 4%nat
  else None.

(** The classifier in the words of the specification: the highest tier
    whose configured minimum is at most the score, [normal] when there is
    none. *)
Definition tier_matches (tiers : gmap string Q) (score : Q) (t : string) : bool :=
  match tiers !! t with
  | Some m => Qle_bool m score
  | None => false
  end.

Definition classify_spec (tiers : gmap string Q) (score : Q) : string :=
  default "normal" (head (filter (λ t, tier_matches tiers score t = true) tier_order)).

(** The keys of the summary that [detect] reads. *)
Definition summary_fields : list string :=
  [ "up"; "cpu_usage"; "cpu_iowait"; "load1"; "memory_usage"; "swap_usage";
    "fs_usage_top3"; "fs_readonly"; "network_err_per_sec"; "tcp_retrans_per_sec";
    "tcp_listen_overflow_per_sec" ].

(** What every anomaly record must satisfy. *)
Definition record_ok (a : Anomaly.t) : Prop :=
  Anomaly.message a ≠ "" ∧
  (Anomaly.severity a = "warning" ∨ Anomaly.severity a = "critical").

(** Shapes of summary values that the checks accept. *)
Definition is_num (v : pyval) : bool :=
  match v with VNum _ => true | _ => false end.

Definition num_or_none (v : pyval) : bool :=
  match v with VNone | VNum _ => true | _ => false end.

(** An entry of [fs_usage_top3]: a dict whose [value] is absent, [None] or
    a number and whose [labels], when present, are a dict. *)
Definition entry_ok (fs : pyval) : bool :=
  match fs with
  | VDict entry =>
      num_or_none (dict_get entry "value") &&
      is_ok (as_dict (dict_get_default entry "labels" (VDict ∅)))
  | _ => false
  end.

(** The fields compared under an [is not None] guard, and the fields read
    with [.get(k, 0)] and compared without a guard. *)
Definition guarded_fields : list string :=
  [ "cpu_usage"; "cpu_iowait"; "load1"; "memory_usage"; "swap_usage" ].
Definition unguarded_fields : list string :=
  [ "fs_readonly"; "network_err_per_sec"; "tcp_retrans_per_sec";
    "tcp_listen_overflow_per_sec" ].


(** The keys that [detect] and [_calculate_severity] subscript. *)
Definition threshold_keys : list string :=
  [ "cpu_usage"; "iowait"; "memory_usage"; "swap_usage"; "disk_usage";
    "network_errors_per_sec"; "tcp_retrans_per_sec" ].
Definition weight_keys : list string :=
  [ "system_down"; "cpu_high"; "iowait_high"; "load_extreme"; "memory_high";
    "swap_high"; "disk_high"; "fs_readonly"; "network_errors"; "tcp_retrans";
    "tcp_overflow" ].



(** ** Vocabulary of the further statements *)

(** What a check that fires adds to the score: the weight itself (the
    checks of [up] and [fs_readonly]) or the smaller of the weight and a
    positive excess. *)
Definition contribution (w c : Q) : Prop :=
  c = w ∨ ∃ e, 0 < e ∧ c = Qmin w e.

(** One check seen from outside: the state is left as it is, or one record
    for metric [m] is appended and the score grows by a contribution capped
    by the weight under key [wk]. *)
Definition step (self : AnomalyDetector) (m wk : string) (st st' : state) : Prop :=
  st' = st ∨
  ∃ a w c,
    st' = (st.1 ++ [a], st.2 + c) ∧
    Anomaly.metric a = m ∧
    weights self !! wk = Some w ∧
    contribution w c.

(** A sequence of checks, given by their metric and weight key. *)
Fixpoint chain (self : AnomalyDetector) (rules : list (string * string))
    (st st' : state) : Prop :=
  match rules with
  | [] => st' = st
  | (m, wk) :: rules' => ∃ s1, step self m wk st s1 ∧ chain self rules' s1 st'
  end.

(** The number of times the body of the filesystem loop runs. *)
Definition fs_entries (summary : gmap string pyval) : nat :=
  match dict_get summary "fs_usage_top3" with
  | VList l => length l
  | _ => 0%nat
  end.

(** The metric and the weight key of each check that [detect] runs on
    [summary], in order; the filesystem check counts once per entry. *)
Definition rules_run (summary : gmap string pyval) : list (string * string) :=
  [ ("up", "system_down"); ("cpu_usage", "cpu_high"); ("cpu_iowait", "iowait_high");
    ("load1", "load_extreme"); ("memory_usage", "memory_high");
    ("swap_usage", "swap_high") ] ++
  replicate (fs_entries summary) ("fs_usage", "disk_high") ++
  [ ("fs_readonly", "fs_readonly"); ("network_err_per_sec", "network_errors");
    ("tcp_retrans_per_sec", "tcp_retrans");
    ("tcp_listen_overflow_per_sec", "tcp_overflow") ].

(** The weight under a key, 0 when the key is not configured. *)
Definition weight_of (self : AnomalyDetector) (wk : string) : Q :=
  default 0 (weights self !! wk).

Definition Qsum (l : list Q) : Q := foldr Qplus 0 l.

(** Every configured weight is at least [lo]. *)
Definition weights_above (lo : Q) (self : AnomalyDetector) : Prop :=
  ∀ wk w, weights self !! wk = Some w → lo <= w.

(** *** When a scalar check fires

    Each check other than the filesystem one compares one field of the
    summary with a limit: a configured threshold, a constant of the code,
    or, for [up], equality with 0.  The field is read with a default:
    [None] for [.get(k)], 0 for [.get(k, 0)]. *)

Inductive limit :=
| Configured (k : string)
| Fixed (t : Q)
| IsZero.

Record rule := {
  rule_metric : string;
  rule_limit : limit;
  rule_default : pyval
}.

Definition scalar_rules : list rule :=
  [ {| rule_metric := "up"; rule_limit := IsZero; rule_default := VNone |};
    {| rule_metric := "cpu_usage"; rule_limit := Configured "cpu_usage";
       rule_default := VNone |};
    {| rule_metric := "cpu_iowait"; rule_limit := Configured "iowait";
       rule_default := VNone |};
    {| rule_metric := "load1"; rule_limit := Fixed 10; rule_default := VNone |};
    {| rule_metric := "memory_usage"; rule_limit := Configured "memory_usage";
       rule_default := VNone |};
    {| rule_metric := "swap_usage"; rule_limit := Configured "swap_usage";
       rule_default := VNone |};
    {| rule_metric := "fs_readonly"; rule_limit := Fixed 0; rule_default := VNum 0 |};
    {| rule_metric := "network_err_per_sec";
       rule_limit := Configured "network_errors_per_sec"; rule_default := VNum 0 |};
    {| rule_metric := "tcp_retrans_per_sec";
       rule_limit := Configured "tcp_retrans_per_sec"; rule_default := VNum 0 |};
    {| rule_metric := "tcp_listen_overflow_per_sec"; rule_limit := Fixed 0;
       rule_default := VNum 0 |} ].

(** [x] is a number greater than [t]. *)
Definition exceeds (x : pyval) (t : Q) : Prop := ∃ v, x = VNum v ∧ t < v.

Definition triggered (self : AnomalyDetector) (summary : gmap string pyval) (ru : rule)
  : Prop :=
  let x := default (rule_default ru) (summary !! rule_metric ru) in
  match rule_limit ru with
  | Configured k => ∃ th, thresholds self !! k = Some th ∧ exceeds x th
  | Fixed t => exceeds x t
  | IsZero => ∃ v, x = VNum v ∧ v == 0
  end.

(** The records that one check appends: none when the rule is not
    triggered, one for the rule's metric when it is. *)
Definition segment (self : AnomalyDetector) (summary : gmap string pyval) (ru : rule)
    (e : list Anomaly.t) : Prop :=
  (e = [] ∧ ¬ triggered self summary ru) ∨
  (∃ a, e = [a] ∧ Anomaly.metric a = rule_metric ru ∧ triggered self summary ru).

(** The number held by the [value] key of a filesystem entry. *)
Definition entry_value (fs : pyval) : option Q :=
  match fs with
  | VDict entry =>
      match entry !! "value" with
      | Some (VNum v) => Some v
      | _ => None
      end
  | _ => None
  end.

(** ** prometheus_client.py

    The code outside [detect] raises more kinds of exception; [outcome]
    is the result monad over them.  [d[i]] with an integer [i] on a dict
    parsed from JSON, whose keys are strings, is always a [KeyError]. *)

Inductive raised :=
| Std (e : exn)
| ValueError
| IndexError
| IntKeyError (i : nat).

Inductive outcome (A : Type) :=
| Done (a : A)
| Fail (e : raised).
Arguments Done {A} a.
Arguments Fail {A} e.

#[global] Instance outcome_ret : MRet outcome := fun A a => Done a.
#[global] Instance outcome_bind : MBind outcome := fun A B f m =>
  match m with
  | Done a => f a
  | Fail e => Fail e
  end.

Definition lift {A} (r : result A) : outcome A :=
  match r with
  | Ok a => Done a
  | Raise e => Fail (Std e)
  end.

(** [for x in l], collecting one value per element. *)
Fixpoint map_each {A B : Type} (body : A → outcome B) (l : list A) : outcome (list B) :=
  match l with
  | [] => Done []
  | x :: l' => y ← body x; ys ← map_each body l'; Done (y :: ys)
  end.

(** Three things are taken as given: [parse_float s] is [float(s)] for a
    string, [None] when Python raises [ValueError]; [str_item s i] is the
    one-character string [s[i]], [None] when the index is out of range;
    [fetch url auth q] is the JSON document that the server at [url]
    answers to the query [q] sent with the credentials [auth], [None] when
    the request or the decoding of the answer raises
    [requests.RequestException]. *)
Variable parse_float : string → option Q.
Variable str_item : string → nat → option string.
Variable fetch : string → option string * option string → string → option pyval.

(** [float(x)] *)
Definition py_float (x : pyval) : outcome Q :=
  match x with
  | VNum q => Done q
  | VStr s =>
      match parse_float s with
      | Some q => Done q
      | None => Fail ValueError
      end
  | _ => Fail (Std TypeError)
  end.

(** [x[i]] for an integer [i >= 0] *)
Definition py_item (x : pyval) (i : nat) : outcome pyval :=
  match x with
  | VList l =>
      match l !! i with
      | Some y => Done y
      | None => Fail IndexError
      end
  | VStr s =>
      match str_item s i with
      | Some c => Done (VStr c)
      | None => Fail IndexError
      end
  | VDict _ => Fail (IntKeyError i)
  | _ => Fail (Std TypeError)
  end.

(** [v == s] for a string [s] *)
Definition py_eq_str (v : pyval) (s : string) : bool :=
  match v with VStr s' => bool_decide (s' = s) | _ => false end.

Record PrometheusClient := {
  instance_id : option string;
  base_url : option string;
  api_key : option string
}.

(** [x or dflt] for an optional string: [None] and the empty string are
    both false; the default is itself an optional string, read from the
    environment. *)
Definition str_or (x dflt : option string) : option string :=
  match x with
  | Some s => if bool_decide (s = "") then dflt else Some s
  | None => dflt
  end.

(** [PrometheusClient.__init__], given the three module constants. *)
Definition client_init (INSTANCE_ID PROM_URL API_KEY : option string)
    (instance_id base_url api_key : option string) : PrometheusClient :=
  {| instance_id := str_or instance_id INSTANCE_ID;
     base_url := str_or base_url PROM_URL;
     api_key := str_or api_key API_KEY |}.

(** [f"{self.base_url}/api/v1/query"], with [str(None)] for an unset URL. *)
Definition query_url (self : PrometheusClient) : string :=
  default "None" (base_url self) +:+ "/api/v1/query".

(** [PrometheusClient.query]: the [data] member of a successful answer,
    [None] for a failed request or an answer whose status is not
    "success".  Logging is left out. *)
Definition query (self : PrometheusClient) (q : string) : outcome pyval :=
  match fetch (query_url self) (instance_id self, api_key self) q with
  | None => Done VNone
  | Some data =>
      d ← lift (as_dict data);
      if py_eq_str (dict_get d "status") "success"
      then Done (dict_get_default d "data" (VDict ∅))
      else Done VNone
  end.

(** [item.get("value", [None, None])[1]] *)
Definition sample_value (item : pyval) : outcome pyval :=
  d ← lift (as_dict item);
  py_item (dict_get_default d "value" (VList [VNone; VNone])) 1.

(** The branch of [execute_queries] for a single result. *)
Definition shape_single (item : pyval) : outcome pyval :=
  x ← sample_value item;
  if is_not_none x then v ← py_float x; Done (VNum v) else Done VNone.

(** One round of the list comprehension of [execute_queries]: the filter,
    then the element. *)
Definition shape_item (item : pyval) : outcome (option pyval) :=
  x ← sample_value item;
  if is_not_none x then
    d ← lift (as_dict item);
    let labels := dict_get_default d "metric" (VDict ∅) in
    x' ← sample_value item;
    v ← py_float x';
    Done (Some (VDict {[ "labels" := labels; "value" := VNum v ]}))
  else Done None.

(** The body of the loop of [execute_queries] after the query: what is
    stored for [data].  A result that is true but not a list fails in
    [len], in [result[0]] or in the first [item.get]. *)
Definition shape_result (data : pyval) : outcome pyval :=
  if is_not_none data then
    d ← lift (as_dict data);
    let result := dict_get_default d "result" (VList []) in
    if negb (py_truthy result) then Done VNone
    else
      match result with
      | VList [item] => shape_single item
      | VList items =>
          shaped ← map_each shape_item items;
          Done (VList (omap id shaped))
      | VDict d' =>
          if bool_decide (size d' = 1%nat) then Fail (IntKeyError 0)
          else Fail (Std AttributeError)
      | VStr _ => Fail (Std AttributeError)
      | _ => Fail (Std TypeError)
      end
  else Done VNone.

(** [PrometheusClient.execute_queries]; the dict of queries is the list
    of its items in insertion order. *)
Definition execute_queries (self : PrometheusClient) (queries : list (string * string))
  : outcome (gmap string pyval) :=
  foldl (λ acc '(name, q),
           results ← acc;
           data ← query self q;
           v ← shape_result data;
           Done (<[name := v]> results))
        (Done ∅) queries.

(** ** config.py: [validate_config] *)

(** [not value] for an optional string *)
Definition unset (value : option string) : bool :=
  match value with
  | Some s => bool_decide (s = "")
  | None => true
  end.

(** [[name for name, value in required_vars.items() if not value]] *)
Definition missing_vars (INSTANCE_ID PROM_URL API_KEY : option string) : list string :=
  (filter (λ nv, unset nv.2 = true)
     [ ("INSTANCE_ID", INSTANCE_ID); ("PROM_URL", PROM_URL); ("API_KEY", API_KEY) ]).*1.

(** [validate_config]: the returned flag and the messages logged, in
    order. *)
Definition validate_config (INSTANCE_ID PROM_URL API_KEY : option string)
  : bool * list string :=
  let missing := missing_vars INSTANCE_ID PROM_URL API_KEY in
  if negb (bool_decide (length missing = 0%nat)) then
    (false,
     [ "必須環境変数が設定されていません: " +:+ String.concat ", " missing;
       ".env ファイルを確認してください" ])
  else (true, [ "設定の検証が完了しました" ]).

(** ** utils.py *)

(** [f"{v:.pf}"]: a string has no [f] format, other values that are not
    numbers reject every format string. *)
Definition py_format_f (p : nat) (v : pyval) : outcome string :=
  match v with
  | VNum q => Done (format_f p q)
  | VStr _ => Fail ValueError
  | _ => Fail (Std TypeError)
  end.

Definition divisors : gmap string Q :=
  {[ "B" := 1; "KB" := 1024; "MB" := 1024 ^ 2; "GB" := 1024 ^ 3 ]}.

Definition format_bytes (bytes_value : pyval) (unit : string) : outcome string :=
  if is_not_none bytes_value then
    let divisor := default (1024 ^ 2) (divisors !! unit) in
    v ← lift (to_num bytes_value);
    s ← py_format_f 1 (VNum (v / divisor));
    Done (s +:+ " " +:+ unit)
  else Done "N/A".

Definition format_percentage (value : pyval) (decimals : nat) : outcome string :=
  if is_not_none value then
    s ← py_format_f decimals value;
    Done (s +:+ "%")
  else Done "N/A".

Definition format_rate (value : pyval) (unit : string) (decimals : nat) : outcome string :=
  if is_not_none value then
    s ← py_format_f decimals value;
    Done (s +:+ unit)
  else Done "N/A".


(** A sample of an instant vector as the Prometheus API sends it: the
    labels and the pair of a timestamp and the value as a string. *)
Definition sample (s : gmap string pyval * pyval * string) : pyval :=
  let '(labels, ts, text) := s in
  VDict {[ "metric" := VDict labels; "value" := VList [ts; VStr text] ]}.

Definition sample_of (labels : gmap string pyval) (ts : pyval) (text : string) : pyval :=
  sample (labels, ts, text).

(** What [execute_queries] stores for a sample inside a list. *)
Definition stored_entry (s : gmap string pyval * pyval * string) : pyval :=
  let '(labels, ts, text) := s in
  VDict {[ "labels" := VDict labels; "value" := VNum (default 0 (parse_float text)) ]}.

(** A query that brings nothing back: the request fails, or the answer is
    a dict whose status is not "success". *)
Definition query_fails (self : PrometheusClient) (q : string) : Prop :=
  match fetch (query_url self) (instance_id self, api_key self) q with
  | None => True
  | Some (VDict d) => py_eq_str (dict_get d "status") "success" = false
  | Some _ => False
  end.

(** The record that the list comprehension of [execute_queries] builds. *)
Definition is_stored_entry (e : pyval) : Prop :=
  ∃ labels v, e = VDict {[ "labels" := labels; "value" := VNum v ]}.

(** The values that [execute_queries] can store under a name. *)
Definition stored_shape (v : pyval) : Prop :=
  v = VNone ∨ is_num v = true ∨ ∃ l, v = VList l ∧ Forall is_stored_entry l.

(** ** metrics_queries.py

    The two tables, as the lists of their items in source order, with
    [QUERY_RANGE = "5m"] filled in. *)

Definition dq : string := String (ascii_of_nat 34) "".
Definition nl : string := String (ascii_of_nat 10) "".

Definition SUMMARY_QUERIES : list (string * string) :=
  [ ("up",
     "up");
    ("scrape_duration",
     "scrape_duration_seconds");
    ("cpu_usage",
     "100 * (1 - avg(rate(node_cpu_seconds_total{mode=" +:+ dq +:+ "idle" +:+ dq +:+ "}[5m])))");
    ("cpu_iowait",
     "100 * avg(rate(node_cpu_seconds_total{mode=" +:+ dq +:+ "iowait" +:+ dq +:+ "}[5m]))");
    ("load1",
     "node_load1");
    ("load5",
     "node_load5");
    ("load15",
     "node_load15");
    ("memory_usage",
     "100 * (1 - (" +:+ nl +:+
     "        node_memory_MemFree_bytes +" +:+ nl +:+
     "        node_memory_Cached_bytes +" +:+ nl +:+
     "        node_memory_Buffers_bytes +" +:+ nl +:+
     "        node_memory_SReclaimable_bytes" +:+ nl +:+
     "    ) / node_memory_MemTotal_bytes)");
    ("swap_usage",
     "100 * (1 - node_memory_SwapFree_bytes / node_memory_SwapTotal_bytes)");
    ("disk_read_bytes_per_sec",
     "sum(rate(node_disk_read_bytes_total[5m]))");
    ("disk_write_bytes_per_sec",
     "sum(rate(node_disk_written_bytes_total[5m]))");
    ("disk_io_util",
     "100 * sum(rate(node_disk_io_time_seconds_total[5m]))");
    ("fs_usage_top3",
     "topk(3, 100 * (1 - node_filesystem_avail_bytes{fstype!~" +:+ dq +:+ "tmpfs|fuse.*" +:+ dq +:+ "} /" +:+ nl +:+
     "                        node_filesystem_size_bytes{fstype!~" +:+ dq +:+ "tmpfs|fuse.*" +:+ dq +:+ "}))");
    ("fs_readonly",
     "max(node_filesystem_readonly)");
    ("network_rx_bytes_per_sec",
     "sum(rate(node_network_receive_bytes_total[5m]))");
    ("network_tx_bytes_per_sec",
     "sum(rate(node_network_transmit_bytes_total[5m]))");
    ("network_drop_per_sec",
     "sum(rate(node_network_receive_drop_total[5m]) + rate(node_network_transmit_drop_total[5m]))");
    ("network_err_per_sec",
     "sum(rate(node_network_receive_errs_total[5m]) + rate(node_network_transmit_errs_total[5m]))");
    ("tcp_curr_estab",
     "node_netstat_Tcp_CurrEstab");
    ("tcp_retrans_per_sec",
     "sum(rate(node_netstat_Tcp_RetransSegs[5m]))");
    ("tcp_listen_overflow_per_sec",
     "sum(rate(node_netstat_TcpExt_ListenOverflows[5m]) + rate(node_netstat_TcpExt_ListenDrops[5m]))") ].

Definition DETAILED_QUERIES : list (string * string) :=
  [ ("cpu_by_mode",
     "100 * sum by (mode) (rate(node_cpu_seconds_total[5m]))");
    ("context_switches_per_sec",
     "rate(node_context_switches_total[5m])");
    ("memory_active",
     "node_memory_Active_bytes");
    ("memory_inactive",
     "node_memory_Inactive_bytes");
    ("memory_cached",
     "node_memory_Cached_bytes");
    ("memory_buffers",
     "node_memory_Buffers_bytes");
    ("memory_slab",
     "node_memory_Slab_bytes");
    ("memory_dirty",
     "node_memory_Dirty_bytes");
    ("disk_read_ops_top5",
     "topk(5, sum by (device) (rate(node_disk_reads_completed_total[5m])))");
    ("disk_write_ops_top5",
     "topk(5, sum by (device) (rate(node_disk_writes_completed_total[5m])))");
    ("disk_read_bytes_top5",
     "topk(5, sum by (device) (rate(node_disk_read_bytes_total[5m])))");
    ("disk_write_bytes_top5",
     "topk(5, sum by (device) (rate(node_disk_written_bytes_total[5m])))");
    ("disk_io_time_top5",
     "topk(5, sum by (device) (rate(node_disk_io_time_seconds_total[5m])))");
    ("fs_all_usage",
     "100 * (1 - node_filesystem_avail_bytes{fstype!~" +:+ dq +:+ "tmpfs|fuse.*" +:+ dq +:+ "} /" +:+ nl +:+
     "                       node_filesystem_size_bytes{fstype!~" +:+ dq +:+ "tmpfs|fuse.*" +:+ dq +:+ "})");
    ("fs_inodes_usage",
     "100 * (1 - node_filesystem_files_free{fstype!~" +:+ dq +:+ "tmpfs|fuse.*" +:+ dq +:+ "} /" +:+ nl +:+
     "                          node_filesystem_files{fstype!~" +:+ dq +:+ "tmpfs|fuse.*" +:+ dq +:+ "})");
    ("network_rx_top5",
     "topk(5, sum by (device) (rate(node_network_receive_bytes_total[5m])))");
    ("network_tx_top5",
     "topk(5, sum by (device) (rate(node_network_transmit_bytes_total[5m])))");
    ("network_drop_top5",
     "topk(5, sum by (device) (rate(node_network_receive_drop_total[5m]) + rate(node_network_transmit_drop_total[5m])))");
    ("network_err_top5",
     "topk(5, sum by (device) (rate(node_network_receive_errs_total[5m]) + rate(node_network_transmit_errs_total[5m])))");
    ("tcp_active_opens_per_sec",
     "rate(node_netstat_Tcp_ActiveOpens[5m])");
    ("tcp_passive_opens_per_sec",
     "rate(node_netstat_Tcp_PassiveOpens[5m])");
    ("tcp_in_errs_per_sec",
     "rate(node_netstat_Tcp_InErrs[5m])");
    ("tcp_out_rsts_per_sec",
     "rate(node_netstat_Tcp_OutRsts[5m])");
    ("tcp_timeouts_per_sec",
     "rate(node_netstat_TcpExt_TCPTimeouts[5m])");
    ("sockets_used",
     "node_sockstat_sockets_used");
    ("tcp_alloc",
     "node_sockstat_TCP_alloc");
    ("tcp_inuse",
     "node_sockstat_TCP_inuse");
    ("tcp_orphan",
     "node_sockstat_TCP_orphan");
    ("tcp_tw",
     "node_sockstat_TCP_tw") ].

(** ** main.py *)

(** [s * n] *)
Fixpoint str_times (s : string) (n : nat) : string :=
  match n with
  | O => ""
  | S n' => s +:+ str_times s n'
  end.

(** [f"<label>{x:.pf}<suffix>" if x else "<label>N/A"], where [shown] is
    the value that the format reads. *)
Definition fixed_or_na (label : string) (p : nat) (suffix : string) (x shown : pyval)
  : outcome string :=
  if py_truthy x then s ← py_format_f p shown; Done (label +:+ s +:+ suffix)
  else Done (label +:+ "N/A").

(** The body of [for i, fs in enumerate(fs_top3, 1)]. *)
Definition fs_line (i : nat) (fs : pyval) : outcome string :=
  entry ← lift (as_dict fs);
  labels ← lift (as_dict (dict_get_default entry "labels" (VDict ∅)));
  let mp := dict_get_default labels "mountpoint" (VStr "unknown") in
  let val := dict_get_default entry "value" (VNum 0) in
  s ← py_format_f 1 val;
  Done ("  " +:+ pretty i +:+ ". " +:+ py_str mp +:+ ": " +:+ s +:+ "%").

Fixpoint fs_lines (i : nat) (l : list pyval) : outcome (list string) :=
  match l with
  | [] => Done []
  | fs :: l' => line ← fs_line i fs; rest ← fs_lines (S i) l'; Done (line :: rest)
  end.

Definition format_summary (summary : gmap string pyval) : outcome string :=
  let bar := str_times "=" 60 in
  let lines := [ bar; "メトリクスサマリ"; bar ] in
  (* 観測健全性 *)
  let lines := lines ++ [ nl +:+ "【観測健全性】" ] in
  let lines := lines ++ [ "  up: " +:+ py_str (dict_get_default summary "up" (VStr "N/A")) ] in
  let scrape_dur := dict_get summary "scrape_duration" in
  line ← fixed_or_na "  scrape_duration: " 3 "s" scrape_dur scrape_dur;
  let lines := lines ++ [ line ] in
  (* CPU *)
  let lines := lines ++ [ nl +:+ "【CPU】" ] in
  s ← format_percentage (dict_get summary "cpu_usage") 1;
  let lines := lines ++ [ "  使用率: " +:+ s ] in
  s ← format_percentage (dict_get summary "cpu_iowait") 1;
  let lines := lines ++ [ "  iowait: " +:+ s ] in
  line ← fixed_or_na "  load1: " 2 "" (dict_get summary "load1")
           (dict_get_default summary "load1" (VStr "N/A"));
  let lines := lines ++ [ line ] in
  line ← fixed_or_na "  load5: " 2 "" (dict_get summary "load5")
           (dict_get_default summary "load5" (VStr "N/A"));
  let lines := lines ++ [ line ] in
  line ← fixed_or_na "  load15: " 2 "" (dict_get summary "load15")
           (dict_get_default summary "load15" (VStr "N/A"));
  let lines := lines ++ [ line ] in
  (* メモリ *)
  let lines := lines ++ [ nl +:+ "【メモリ】" ] in
  s ← format_percentage (dict_get summary "memory_usage") 1;
  let lines := lines ++ [ "  使用率: " +:+ s ] in
  s ← format_percentage (dict_get summary "swap_usage") 1;
  let lines := lines ++ [ "  swap: " +:+ s ] in
  (* ディスク *)
  let lines := lines ++ [ nl +:+ "【ディスクI/O】" ] in
  s ← format_bytes (dict_get summary "disk_read_bytes_per_sec") "MB";
  let lines := lines ++ [ "  読み込み: " +:+ s +:+ "/s" ] in
  s ← format_bytes (dict_get summary "disk_write_bytes_per_sec") "MB";
  let lines := lines ++ [ "  書き込み: " +:+ s +:+ "/s" ] in
  (* ファイルシステム *)
  let lines := lines ++ [ nl +:+ "【ファイルシステム】" ] in
  let fs_top3 := dict_get summary "fs_usage_top3" in
  fs ← (if py_truthy fs_top3 && is_list fs_top3 then
          match fs_top3 with
          | VList l => fs_lines 1 l
          | _ => Done []
          end
        else Done [ "  データなし" ]);
  let lines := lines ++ fs in
  (* ネットワーク *)
  let lines := lines ++ [ nl +:+ "【ネットワーク】" ] in
  s ← format_bytes (dict_get summary "network_rx_bytes_per_sec") "MB";
  let lines := lines ++ [ "  受信: " +:+ s +:+ "/s" ] in
  s ← format_bytes (dict_get summary "network_tx_bytes_per_sec") "MB";
  let lines := lines ++ [ "  送信: " +:+ s +:+ "/s" ] in
  s ← format_rate (dict_get_default summary "network_err_per_sec" (VNum 0)) "/s" 1;
  let lines := lines ++ [ "  エラー: " +:+ s ] in
  (* TCP *)
  let lines := lines ++ [ nl +:+ "【TCP】" ] in
  let lines := lines ++
    [ "  確立済み接続: " +:+ py_str (dict_get_default summary "tcp_curr_estab" (VStr "N/A")) ] in
  s ← format_rate (dict_get_default summary "tcp_retrans_per_sec" (VNum 0)) "/s" 1;
  let lines := lines ++ [ "  再送: " +:+ s ] in
  let lines := lines ++ [ bar ] in
  Done (String.concat nl lines).

(** [analyze summary anomaly_result detailed] is what
    [analyze_metrics_sync] returns or raises; the language model behind it
    is taken as given. *)
Variable analyze :
  gmap string pyval → DetectionResult → option (gmap string pyval) → outcome string.

(** [main]: the exit code it returns, or the exception that leaves it.
    [argv] is [sys.argv]; [INSTANCE_ID], [PROM_URL] and [API_KEY] are the
    constants of config.py.  Logging and the files written by
    [save_result], which catches its own [OSError], are left out. *)
Definition main (argv : list string) (INSTANCE_ID PROM_URL API_KEY : option string)
  : outcome Z :=
  if negb (validate_config INSTANCE_ID PROM_URL API_KEY).1 then Done 1%Z
  else
    let force_detailed := bool_decide ("--detailed" ∈ argv) in
    let prom_client := client_init INSTANCE_ID PROM_URL API_KEY None None None in
    match execute_queries prom_client SUMMARY_QUERIES with
    | Fail _ => Done 1%Z
    | Done summary =>
        _ ← format_summary summary;
        let detector := __init__ None None None in
        anomaly_result ← lift (detect detector summary);
        detailed ← (if is_anomaly anomaly_result || force_detailed
                    then d ← execute_queries prom_client DETAILED_QUERIES; Done (Some d)
                    else Done None);
        let llm_result :=
          match analyze summary anomaly_result detailed with
          | Done text => text
          | Fail _ => "エラーが発生しました。ログを確認してください。"
          end in
        Done (if is_anomaly anomaly_result then 1%Z else 0%Z)
    end.




(** ** Instances used to run the model

    A reader of plain decimal numbers for [parse_float], bytes for
    [str_item], and servers that answer nothing, or one sample whatever the
    query. *)

Definition digit_value (c : ascii) : option Z :=
  let n := Z.of_nat (nat_of_ascii c) in
  if bool_decide (48 ≤ n ≤ 57)%Z then Some (n - 48)%Z else None.

Fixpoint digits_value (acc : Z) (s : string) : option Z :=
  match s with
  | EmptyString => Some acc
  | String c s' =>
      match digit_value c with
      | Some d => digits_value (10 * acc + d)%Z s'
      | None => None
      end
  end.

(** The text before and after the first ".". *)
Fixpoint split_point (s : string) : string * option string :=
  match s with
  | EmptyString => ("", None)
  | String c s' =>
      if bool_decide (c = "."%char) then ("", Some s')
      else let '(a, b) := split_point s' in (String c a, b)
  end.

Definition parse_unsigned (s : string) : option Q :=
  let '(a, b) := split_point s in
  if bool_decide (a = "") then None
  else
    match digits_value 0 a, b with
    | Some n, None => Some (inject_Z n)
    | Some n, Some frac =>
        match digits_value 0 frac with
        | Some m => Some (inject_Z n + inject_Z m / inject_Z (10 ^ Z.of_nat (String.length frac)))
        | None => None
        end
    | None, _ => None
    end.

Definition parse_decimal (s : string) : option Q :=
  match s with
  | String "-"%char s' => Qopp <$> parse_unsigned s'
  | _ => parse_unsigned s
  end.

Definition byte_item (s : string) (i : nat) : option string :=
  (λ c, String c "") <$> String.get i s.

Definition fetch_nothing (url : string) (auth : option string * option string) (q : string)
  : option pyval := None.

Definition fetch_one_sample (text : string) (url : string)
    (auth : option string * option string) (q : string) : option pyval :=
  Some (VDict {[ "status" := VStr "success";
                 "data" := VDict {[ "result" := VList [ sample_of ∅ (VNum 0) text ] ]} ]}).

Definition analyze_nothing (summary : gmap string pyval) (anomaly_result : DetectionResult)
    (detailed : option (gmap string pyval)) : outcome string := Done "".

(** ** Basic facts *)

(** Membership in one of the literal key lists. *)
Ltac in_list :=
  cbv delta [threshold_keys weight_keys tier_order guarded_fields unguarded_fields
             summary_fields];
  repeat first [ apply list_elem_of_here | apply list_elem_of_further ].

Lemma Qltb_true (a b : Q) : Qltb a b = true ↔ a < b.
Proof.
  unfold Qltb. rewrite negb_true_iff, <- not_true_iff_false, Qle_bool_iff.
  split; [apply Qnot_le_lt | apply Qlt_not_le].
Qed.

Lemma Qltb_false (a b : Q) : Qltb a b = false ↔ b <= a.
Proof. unfold Qltb. rewrite negb_false_iff. apply Qle_bool_iff. Qed.

Lemma Qle_bool_false (a b : Q) : Qle_bool a b = false ↔ b < a.
Proof.
  rewrite <- not_true_iff_false, Qle_bool_iff.
  split; [apply Qnot_le_lt | apply Qlt_not_le].
Qed.

Lemma bind_Ok {A B} (m : result A) (f : A → result B) (b : B) :
  m ≫= f = Ok b ↔ ∃ a, m = Ok a ∧ f a = Ok b.
Proof.
  destruct m as [a|e]; simpl; split.
  - eauto.
  - intros (a' & [= <-] & ?); done.
  - done.
  - intros (? & [=] & _).
Qed.

Lemma subscript_Some (d : gmap string Q) (k : string) (v : Q) :
  d !! k = Some v → subscript d k = Ok v.
Proof. unfold subscript. by intros ->. Qed.

(** ** The classifier *)

Lemma default_tiers :
  severity_thresholds default_detector !! "critical" = Some 80 ∧
  severity_thresholds default_detector !! "high" = Some 40 ∧
  severity_thresholds default_detector !! "medium" = Some 20 ∧
  severity_thresholds default_detector !! "low" = Some 1.
Proof. repeat split; vm_compute; reflexivity. Qed.

(** Under the default tiers the classifier is a chain of four comparisons. *)
Lemma calculate_severity_default (s : Q) :
  _calculate_severity default_detector s =
  Ok (if Qle_bool 80 s then "critical"
      else if Qle_bool 40 s then "high"
      else if Qle_bool 20 s then "medium"
      else if Qle_bool 1 s then "low"
      else "normal").
Proof.
  destruct default_tiers as (Hc & Hh & Hm & Hl).
  unfold _calculate_severity.
  rewrite (subscript_Some _ _ _ Hc), (subscript_Some _ _ _ Hh),
    (subscript_Some _ _ _ Hm), (subscript_Some _ _ _ Hl). simpl.
  repeat case_match; reflexivity.
Qed.

Ltac Qbool_to_prop :=
  repeat match goal with
  | H : Qle_bool _ _ = true |- _ => apply Qle_bool_iff in H
  | H : Qle_bool _ _ = false |- _ => apply Qle_bool_false in H
  | H : Qltb _ _ = true |- _ => apply Qltb_true in H
  | H : Qltb _ _ = false |- _ => apply Qltb_false in H
  end.

(** C4: the classifier returns the highest tier, in the order critical,
    high, medium, low, whose configured minimum is at most the score, and
    normal when no tier matches; with the default tiers this is the
    partition (-inf,1) normal, [1,20) low, [20,40) medium, [40,80) high,
    [80,inf) critical. *)
Theorem calculate_severity_highest_tier :
  (∀ (self : AnomalyDetector) (s : Q),
      (∀ t, t ∈ tier_order → is_Some (severity_thresholds self !! t)) →
      _calculate_severity self s = Ok (classify_spec (severity_thresholds self) s)) ∧
  (∀ s : Q,
      (s < 1 → _calculate_severity default_detector s = Ok "normal") ∧
      (1 <= s → s < 20 → _calculate_severity default_detector s = Ok "low") ∧
      (20 <= s → s < 40 → _calculate_severity default_detector s = Ok "medium") ∧
      (40 <= s → s < 80 → _calculate_severity default_detector s = Ok "high") ∧
      (80 <= s → _calculate_severity default_detector s = Ok "critical")).
Proof.
  split.
  - intros self s Hall.
    destruct (Hall "critical") as [c Hc]; [in_list|].
    destruct (Hall "high") as [h Hh]; [in_list|].
    destruct (Hall "medium") as [m Hm]; [in_list|].
    destruct (Hall "low") as [l Hl]; [in_list|].
    unfold _calculate_severity, classify_spec, tier_order.
    rewrite (subscript_Some _ _ _ Hc), (subscript_Some _ _ _ Hh),
      (subscript_Some _ _ _ Hm), (subscript_Some _ _ _ Hl). simpl.
    rewrite !filter_cons, filter_nil. unfold tier_matches.
    rewrite Hc, Hh, Hm, Hl.
    destruct (Qle_bool c s), (Qle_bool h s), (Qle_bool m s), (Qle_bool l s);
      repeat case_decide; try done.
  - intros s. rewrite calculate_severity_default.
    repeat split; intros;
      destruct (Qle_bool 80 s) eqn:?, (Qle_bool 40 s) eqn:?,
        (Qle_bool 20 s) eqn:?, (Qle_bool 1 s) eqn:?;
      Qbool_to_prop; try reflexivity; exfalso; lra.
Qed.

(** C5: the classifier is total on scores and monotone: a larger score
    never gets a lower tier in the order normal < low < medium < high <
    critical (default tiers). *)
Theorem calculate_severity_monotone (s1 s2 : Q) :
  s1 <= s2 →
  ∃ (t1 t2 : string) (n1 n2 : nat),
    _calculate_severity default_detector s1 = Ok t1 ∧
    _calculate_severity default_detector s2 = Ok t2 ∧
    tier_rank t1 = Some n1 ∧ tier_rank t2 = Some n2 ∧ (n1 ≤ n2)%nat.
Proof.
  intros Hle. rewrite !calculate_severity_default.
  destruct (Qle_bool 80 s1) eqn:?, (Qle_bool 40 s1) eqn:?,
    (Qle_bool 20 s1) eqn:?, (Qle_bool 1 s1) eqn:?;
  destruct (Qle_bool 80 s2) eqn:?, (Qle_bool 40 s2) eqn:?,
    (Qle_bool 20 s2) eqn:?, (Qle_bool 1 s2) eqn:?;
  Qbool_to_prop; try (exfalso; lra);
  do 4 eexists; (split; [reflexivity|]); (split; [reflexivity|]);
  (split; [vm_compute; reflexivity|]); (split; [vm_compute; reflexivity|]); lia.
Qed.

Lemma dict_or_nonempty (x : option (gmap string Q)) (dflt : gmap string Q) :
  dflt ≠ ∅ → dict_or x dflt ≠ ∅.
Proof.
  intros Hd. unfold dict_or. destruct x as [d|]; [|done].
  case_bool_decide as Hs; [done|].
  intros ->. by rewrite map_size_empty in Hs.
Qed.

(** C10: an empty dict passed to the constructor is replaced by the
    default table, exactly as [None] is, for each of the three
    arguments. *)
Theorem init_empty_dict_is_default
    (th w st : option (gmap string Q)) :
  __init__ (Some ∅) w st = __init__ None w st ∧
  __init__ th (Some ∅) st = __init__ th None st ∧
  __init__ th w (Some ∅) = __init__ th w None ∧
  thresholds (__init__ (Some ∅) w st) = THRESHOLDS ∧
  weights (__init__ th (Some ∅) st) = SEVERITY_WEIGHTS ∧
  severity_thresholds (__init__ th w (Some ∅)) = SEVERITY_THRESHOLDS ∧
  __init__ (Some ∅) (Some ∅) (Some ∅) = default_detector ∧
  thresholds (__init__ th w st) ≠ ∅ ∧
  weights (__init__ th w st) ≠ ∅ ∧
  severity_thresholds (__init__ th w st) ≠ ∅.
Proof.
  repeat split; simpl; apply dict_or_nonempty; intros E.
  - by apply (f_equal (.!! "cpu_usage")) in E.
  - by apply (f_equal (.!! "cpu_high")) in E.
  - by apply (f_equal (.!! "low")) in E.
Qed.

(** ** Invariants of the checks *)

Ltac crack :=
  repeat match goal with
  | H : _ ≫= _ = Ok _ |- _ =>
      let H' := fresh "E" in apply bind_Ok in H; destruct H as (? & H' & H)
  | H : (if ?b then _ else _) = Ok _ |- _ => destruct b eqn:?
  | H : Ok _ = Ok _ |- _ => injection H as H
  | H : Raise _ = Ok _ |- _ => discriminate H
  | H : (_, _) = (_, _) |- _ => injection H as ? ?
  end.

Lemma for_each_preserves {A S : Type} (P : S → Prop)
    (body : A → S → result S) (l : list A) :
  (∀ x s s', x ∈ l → body x s = Ok s' → P s → P s') →
  ∀ st st', for_each body l st = Ok st' → P st → P st'.
Proof.
  induction l as [|x l IH]; intros Hbody st st' Hrun Hst; simpl in Hrun.
  - by injection Hrun as <-.
  - apply bind_Ok in Hrun as (s1 & H1 & Hrun).
    apply (IH (λ y s s' Hy, Hbody y s s' (list_elem_of_further _ _ _ Hy)) s1 st' Hrun).
    apply (Hbody x st s1); [left | done | done].
Qed.

Definition records_ok (st : state) : Prop := Forall record_ok st.1.

Lemma usage_tag_cases (v : Q) :
  (v < CRITICAL_USAGE_THRESHOLD ∧ usage_tag v = "warning") ∨
  (CRITICAL_USAGE_THRESHOLD <= v ∧ usage_tag v = "critical").
Proof.
  unfold usage_tag. destruct (Qltb v CRITICAL_USAGE_THRESHOLD) eqn:E; Qbool_to_prop; auto.
Qed.

Ltac records_step :=
  unfold records_ok in *; simpl in *; subst;
  first
    [ done
    | apply Forall_app; split; [done|];
      apply Forall_singleton; split; simpl;
      [ discriminate
      | first [ left; reflexivity | right; reflexivity
              | match goal with
                | |- context [usage_tag ?v] =>
                    destruct (usage_tag_cases v) as [[_ ->]|[_ ->]];
                    [left | right]; reflexivity
                end ] ] ].

Lemma check_fs_entry_records_ok self fs st st' :
  check_fs_entry self fs st = Ok st' → records_ok st → records_ok st'.
Proof.
  unfold check_fs_entry. destruct st as [anoms score]. intros H Hst.
  crack; records_step.
Qed.

Lemma checks_records_ok chk self summary st st' :
  chk ∈ checks → chk self summary st = Ok st' → records_ok st → records_ok st'.
Proof.
  unfold checks. intros Hin H Hst.
  repeat (apply elem_of_cons in Hin as [->|Hin]); [.. | by apply elem_of_nil in Hin].
  all: try (destruct st as [anoms score];
            unfold check_up, check_cpu, check_iowait, check_load1, check_memory,
              check_swap, check_fs_readonly, check_network, check_tcp_retrans,
              check_tcp_overflow in H; crack; records_step; fail).
  unfold check_fs in H. crack; [|by subst].
  destruct (dict_get summary "fs_usage_top3"); try (by injection H as <-).
  eapply (for_each_preserves records_ok); [|exact H|exact Hst].
  intros x s s' _. apply check_fs_entry_records_ok.
Qed.

Lemma run_checks_records_ok self summary st :
  run_checks self summary = Ok st → records_ok st.
Proof.
  unfold run_checks. intros H.
  eapply (for_each_preserves records_ok); [|exact H|by apply Forall_nil].
  intros chk s s' Hin. by apply checks_records_ok.
Qed.

(** ** The result of [detect] *)

(** C9: the result is internally consistent: [is_anomaly] holds exactly
    when the list of anomalies is not empty, [anomaly_count] is its length,
    and every record has a non-empty message and a severity that is
    "warning" or "critical". *)
Theorem detect_result_consistent
    (self : AnomalyDetector) (summary : gmap string pyval) (r : DetectionResult) :
  detect self summary = Ok r →
  (is_anomaly r = true ↔ anomalies r ≠ []) ∧
  anomaly_count r = length (anomalies r) ∧
  Forall record_ok (anomalies r).
Proof.
  unfold detect. intros H.
  apply bind_Ok in H as ([anoms raw] & Hrun & H).
  apply bind_Ok in H as (tier & Htier & H).
  injection H as <-. simpl. split; [|split].
  - rewrite bool_decide_eq_true. destruct anoms; simpl; [|split; [done|lia]].
    split; [lia|done].
  - reflexivity.
  - exact (run_checks_records_ok _ _ _ Hrun).
Qed.

(** C1: the tier of the result is the classifier applied to the raw score
    accumulated by the checks, and [severity_score] is that raw score capped
    at 100; the cap plays no part in the tier.  The summary with [up = 0]
    and [fs_readonly = 1] has raw score 150 under the default tables, tier
    "critical" and [severity_score] 100. *)
Theorem detect_classifies_raw_score :
  (∀ self summary r,
      detect self summary = Ok r →
      ∃ anoms raw,
        run_checks self summary = Ok (anoms, raw) ∧
        _calculate_severity self raw = Ok (severity r) ∧
        anomalies r = anoms ∧
        severity_score r = Qmin 100 raw) ∧
  (∀ self summary anoms raw tier,
      run_checks self summary = Ok (anoms, raw) →
      _calculate_severity self raw = Ok tier →
      ∃ r, detect self summary = Ok r ∧
        severity r = tier ∧ severity_score r = Qmin 100 raw) ∧
  (∀ summary anoms raw,
      run_checks default_detector summary = Ok (anoms, raw) →
      100 <= raw →
      ∃ r, detect default_detector summary = Ok r ∧
        severity r = "critical" ∧ severity_score r = 100) ∧
  (let summary : gmap string pyval := {[ "up" := VNum 0; "fs_readonly" := VNum 1 ]} in
   ∃ anoms r,
     run_checks default_detector summary = Ok (anoms, 150) ∧
     detect default_detector summary = Ok r ∧
     severity r = "critical" ∧ severity_score r = 100).
Proof.
  repeat split.
  - intros self summary r H. unfold detect in H.
    apply bind_Ok in H as ([anoms raw] & Hrun & H).
    apply bind_Ok in H as (tier & Htier & H).
    injection H as <-. by exists anoms, raw.
  - intros self summary anoms raw tier Hrun Htier.
    unfold detect. rewrite Hrun. simpl. rewrite Htier. simpl. eauto.
  - intros summary anoms raw Hrun Hraw.
    unfold detect. rewrite Hrun. simpl.
    rewrite calculate_severity_default.
    assert (Qle_bool 80 raw = true) as -> by (apply Qle_bool_iff; lra). simpl. eexists. split; [reflexivity|]. simpl.
    split; [reflexivity|].
    unfold Qmin, GenericMinMax.gmin.
    destruct (100 ?= raw) eqn:Hcmp; try reflexivity.
    apply Qgt_alt in Hcmp. lra.
  - simpl. do 2 eexists. vm_compute. repeat split.
Qed.

Lemma dict_get_absent (d : gmap string pyval) (k : string) :
  d !! k = None → dict_get d k = VNone.
Proof. unfold dict_get. by intros ->. Qed.

Lemma dict_get_default_absent (d : gmap string pyval) (k : string) (dflt : pyval) :
  d !! k = None → dict_get_default d k dflt = dflt.
Proof. unfold dict_get_default. by intros ->. Qed.

(** C3: when none of the fields that [detect] reads is present, and in
    particular for the empty summary, the default detector reports no
    anomaly: [is_anomaly] false, no record, score 0, tier "normal". *)
Theorem detect_absent_fields (summary : gmap string pyval) :
  (∀ k, k ∈ summary_fields → summary !! k = None) →
  detect default_detector summary =
  Ok {| is_anomaly := false; anomalies := []; severity := "normal";
        severity_score := 0; anomaly_count := 0 |}.
Proof.
  intros Habs.
  unfold detect, run_checks, checks, for_each.
  unfold check_up, check_cpu, check_iowait, check_load1, check_memory, check_swap,
    check_fs, check_fs_readonly, check_network, check_tcp_retrans, check_tcp_overflow.
  rewrite !dict_get_absent, !dict_get_default_absent
    by (apply Habs; in_list).
  vm_compute. reflexivity.
Qed.

(** ** Single checks *)

Lemma above_threshold_num self (v th : Q) (k : string) :
  thresholds self !! k = Some th →
  above_threshold self (VNum v) k = Ok (Qltb th v).
Proof. intros Hth. unfold above_threshold. simpl. by rewrite (subscript_Some _ _ _ Hth). Qed.

Lemma usage_tag_warning (v : Q) : v < 95 → usage_tag v = "warning".
Proof.
  intros Hv. unfold usage_tag.
  by assert (Qltb v CRITICAL_USAGE_THRESHOLD = true) as -> by by apply Qltb_true.
Qed.

Lemma usage_tag_critical (v : Q) : 95 <= v → usage_tag v = "critical".
Proof.
  intros Hv. unfold usage_tag.
  by assert (Qltb v CRITICAL_USAGE_THRESHOLD = false) as -> by by apply Qltb_false.
Qed.

(** The CPU check when the value is a number above the threshold. *)
Lemma check_cpu_hit self summary anoms score (v th w : Q) :
  summary !! "cpu_usage" = Some (VNum v) →
  thresholds self !! "cpu_usage" = Some th →
  weights self !! "cpu_high" = Some w →
  th < v →
  check_cpu self summary (anoms, score) =
  Ok (anoms ++ [
        {| Anomaly.metric := "cpu_usage";
           Anomaly.message := "CPU使用率が高い (" +:+ format_f 1 v +:+ "%)";
           Anomaly.severity := usage_tag v;
           Anomaly.value := v;
           Anomaly.threshold := Some th;
           Anomaly.mountpoint := None |} ],
      score + Qmin w ((v - th) / 2)).
Proof.
  intros Hv Hth Hw Hlt. unfold check_cpu, dict_get. rewrite Hv. simpl.
  rewrite (above_threshold_num _ _ _ _ Hth).
  apply Qltb_true in Hlt. rewrite Hlt. simpl.
  by rewrite (subscript_Some _ _ _ Hth), (subscript_Some _ _ _ Hw).
Qed.

(** The body of the filesystem loop on an entry whose value is a number
    above the threshold and whose labels, when present, are a dict. *)
Lemma check_fs_entry_hit self entry labels anoms score (v th w : Q) :
  entry !! "value" = Some (VNum v) →
  as_dict (dict_get_default entry "labels" (VDict ∅)) = Ok labels →
  thresholds self !! "disk_usage" = Some th →
  weights self !! "disk_high" = Some w →
  th < v →
  check_fs_entry self (VDict entry) (anoms, score) =
  let mountpoint := dict_get_default labels "mountpoint" (VStr "unknown") in
  Ok (anoms ++ [
        {| Anomaly.metric := "fs_usage";
           Anomaly.message :=
             "ディスク使用率が高い (" +:+ py_str mountpoint +:+ ": " +:+ format_f 1 v +:+ "%)";
           Anomaly.severity := usage_tag v;
           Anomaly.value := v;
           Anomaly.threshold := Some th;
           Anomaly.mountpoint := Some mountpoint |} ],
      score + Qmin w ((v - th) / 2)).
Proof.
  intros Hv Hlab Hth Hw Hlt. unfold check_fs_entry, dict_get. simpl. rewrite Hv. simpl.
  rewrite (above_threshold_num _ _ _ _ Hth).
  apply Qltb_true in Hlt. rewrite Hlt. simpl. rewrite Hlab. simpl.
  by rewrite (subscript_Some _ _ _ Hth), (subscript_Some _ _ _ Hw).
Qed.

(** With the default tables, a check whose field is absent leaves the
    state as it is. *)
Lemma checks_skip_absent (summary : gmap string pyval) :
  (summary !! "up" = None → ∀ st, check_up default_detector summary st = Ok st) ∧
  (summary !! "cpu_usage" = None → ∀ st, check_cpu default_detector summary st = Ok st) ∧
  (summary !! "cpu_iowait" = None →
     ∀ st, check_iowait default_detector summary st = Ok st) ∧
  (summary !! "load1" = None → ∀ st, check_load1 default_detector summary st = Ok st) ∧
  (summary !! "memory_usage" = None →
     ∀ st, check_memory default_detector summary st = Ok st) ∧
  (summary !! "swap_usage" = None → ∀ st, check_swap default_detector summary st = Ok st) ∧
  (summary !! "fs_usage_top3" = None → ∀ st, check_fs default_detector summary st = Ok st) ∧
  (summary !! "fs_readonly" = None →
     ∀ st, check_fs_readonly default_detector summary st = Ok st) ∧
  (summary !! "network_err_per_sec" = None →
     ∀ st, check_network default_detector summary st = Ok st) ∧
  (summary !! "tcp_retrans_per_sec" = None →
     ∀ st, check_tcp_retrans default_detector summary st = Ok st) ∧
  (summary !! "tcp_listen_overflow_per_sec" = None →
     ∀ st, check_tcp_overflow default_detector summary st = Ok st).
Proof.
  repeat split; intros H [anoms score];
    unfold check_up, check_cpu, check_iowait, check_load1, check_memory, check_swap,
      check_fs, check_fs_readonly, check_network, check_tcp_retrans, check_tcp_overflow,
      dict_get, dict_get_default;
    rewrite H; vm_compute; reflexivity.
Qed.

Lemma run_checks_unfold self summary :
  run_checks self summary =
  (st ← check_up self summary ([], 0);
   st ← check_cpu self summary st;
   st ← check_iowait self summary st;
   st ← check_load1 self summary st;
   st ← check_memory self summary st;
   st ← check_swap self summary st;
   st ← check_fs self summary st;
   st ← check_fs_readonly self summary st;
   st ← check_network self summary st;
   st ← check_tcp_retrans self summary st;
   st ← check_tcp_overflow self summary st;
   Ok st).
Proof. reflexivity. Qed.

Lemma bind_Ok_l {A B} (a : A) (f : A → result B) : Ok a ≫= f = f a.
Proof. reflexivity. Qed.

Lemma check_fs_list self summary (x : pyval) (l : list pyval) st :
  summary !! "fs_usage_top3" = Some (VList (x :: l)) →
  check_fs self summary st = for_each (check_fs_entry self) (x :: l) st.
Proof. intros H. unfold check_fs, dict_get. by rewrite H. Qed.

(** The default detector on a summary that holds only a one-entry
    [fs_usage_top3] whose value is a number above the disk threshold. *)
Lemma run_checks_single_fs_entry (entry labels : gmap string pyval) (v : Q) :
  entry !! "value" = Some (VNum v) →
  as_dict (dict_get_default entry "labels" (VDict ∅)) = Ok labels →
  90 < v →
  run_checks default_detector {[ "fs_usage_top3" := VList [VDict entry] ]} =
  let mountpoint := dict_get_default labels "mountpoint" (VStr "unknown") in
  Ok ([ {| Anomaly.metric := "fs_usage";
           Anomaly.message :=
             "ディスク使用率が高い (" +:+ py_str mountpoint +:+ ": " +:+ format_f 1 v +:+ "%)";
           Anomaly.severity := usage_tag v;
           Anomaly.value := v;
           Anomaly.threshold := Some 90;
           Anomaly.mountpoint := Some mountpoint |} ],
      0 + Qmin 20 ((v - 90) / 2)).
Proof.
  intros Hv Hlab Hlt.
  set (summary := {[ "fs_usage_top3" := VList [VDict entry] ]} : gmap string pyval).
  destruct (checks_skip_absent summary)
    as (Hup & Hcpu & Hio & Hload & Hmem & Hswap & _ & Hro & Hnet & Hret & Hovf).
  rewrite run_checks_unfold.
  rewrite Hup, bind_Ok_l by done. rewrite Hcpu, bind_Ok_l by done.
  rewrite Hio, bind_Ok_l by done. rewrite Hload, bind_Ok_l by done.
  rewrite Hmem, bind_Ok_l by done. rewrite Hswap, bind_Ok_l by done.
  rewrite (check_fs_list _ _ (VDict entry) []) by apply lookup_singleton_eq.
  unfold for_each.
  rewrite (check_fs_entry_hit default_detector entry labels [] 0 v 90 20 Hv Hlab)
    by (done || vm_compute; reflexivity).
  cbv zeta. rewrite !bind_Ok_l.
  rewrite Hro, bind_Ok_l by done. rewrite Hnet, bind_Ok_l by done.
  rewrite Hret, bind_Ok_l by done. rewrite Hovf, bind_Ok_l by done.
  reflexivity.
Qed.

(** ** Scenarios *)

(** C6: the CPU check tags "warning" below 95 and "critical" from 95 on,
    whatever the configured threshold, and in both cases adds
    min(weight, (v - threshold) / 2) to the score; with the default
    threshold 80 and weight 30, 94.9 is tagged "warning" and 95.0
    "critical". *)
Theorem cpu_usage_boundary_tagging :
  (∀ self summary anoms score (v th w : Q),
      summary !! "cpu_usage" = Some (VNum v) →
      thresholds self !! "cpu_usage" = Some th →
      weights self !! "cpu_high" = Some w →
      th < v →
      ∃ a,
        check_cpu self summary (anoms, score) =
          Ok (anoms ++ [a], score + Qmin w ((v - th) / 2)) ∧
        Anomaly.metric a = "cpu_usage" ∧
        (v < 95 → Anomaly.severity a = "warning") ∧
        (95 <= v → Anomaly.severity a = "critical")) ∧
  (∃ a raw r,
      run_checks default_detector {[ "cpu_usage" := VNum 94.9 ]} = Ok ([a], raw) ∧
      detect default_detector {[ "cpu_usage" := VNum 94.9 ]} = Ok r ∧
      anomalies r = [a] ∧
      Anomaly.metric a = "cpu_usage" ∧
      Anomaly.severity a = "warning" ∧
      raw == Qmin 30 ((94.9 - 80) / 2)) ∧
  (∃ a raw r,
      run_checks default_detector {[ "cpu_usage" := VNum 95.0 ]} = Ok ([a], raw) ∧
      detect default_detector {[ "cpu_usage" := VNum 95.0 ]} = Ok r ∧
      anomalies r = [a] ∧
      Anomaly.metric a = "cpu_usage" ∧
      Anomaly.severity a = "critical" ∧
      raw == Qmin 30 ((95.0 - 80) / 2)).
Proof.
  split; [|split].
  - intros self summary anoms score v th w Hv Hth Hw Hlt.
    eexists. split; [by apply check_cpu_hit|].
    simpl. split; [done|]. split; [apply usage_tag_warning | apply usage_tag_critical].
  - do 3 eexists. split; [vm_compute; reflexivity|].
    split; [vm_compute; reflexivity|]. by vm_compute.
  - do 3 eexists. split; [vm_compute; reflexivity|].
    split; [vm_compute; reflexivity|]. by vm_compute.
Qed.

(** C7: for the summary holding only [tcp_listen_overflow_per_sec = 0.05]
    the default detector returns one record, raw score min(20, 0.05 * 2) =
    0.1, tier "normal" and [is_anomaly] true. *)
Theorem tcp_overflow_anomaly_with_normal_tier :
  let summary : gmap string pyval := {[ "tcp_listen_overflow_per_sec" := VNum 0.05 ]} in
  ∃ a raw r,
    run_checks default_detector summary = Ok ([a], raw) ∧
    detect default_detector summary = Ok r ∧
    raw == Qmin 20 (0.05 * 2) ∧ raw == 0.1 ∧
    anomalies r = [a] ∧
    anomaly_count r = 1%nat ∧
    Anomaly.metric a = "tcp_listen_overflow_per_sec" ∧
    Anomaly.severity a = "warning" ∧
    severity_score r == 0.1 ∧
    severity r = "normal" ∧
    is_anomaly r = true.
Proof.
  simpl. do 3 eexists. split; [vm_compute; reflexivity|].
  split; [vm_compute; reflexivity|]. by vm_compute.
Qed.

(** C8: the filesystem check looks at each entry on its own.  With the
    default disk threshold 90, the entries "/" at 92.0 and "/data" at 60.0
    give one record, for "/", tagged "warning", and the score
    min(20, (92 - 90) / 2) = 1; an entry above the threshold whose labels
    are absent or have no [mountpoint] key gives a record with mountpoint
    "unknown". *)
Theorem fs_usage_checked_per_entry :
  (let summary : gmap string pyval :=
     {[ "fs_usage_top3" :=
          VList [ VDict {[ "labels" := VDict {[ "mountpoint" := VStr "/" ]};
                           "value" := VNum 92.0 ]};
                  VDict {[ "labels" := VDict {[ "mountpoint" := VStr "/data" ]};
                           "value" := VNum 60.0 ]} ] ]} in
   ∃ a raw r,
     run_checks default_detector summary = Ok ([a], raw) ∧
     detect default_detector summary = Ok r ∧
     anomalies r = [a] ∧
     Anomaly.metric a = "fs_usage" ∧
     Anomaly.mountpoint a = Some (VStr "/") ∧
     Anomaly.value a == 92.0 ∧
     Anomaly.threshold a = Some 90 ∧
     Anomaly.severity a = "warning" ∧
     raw == Qmin 20 ((92 - 90) / 2) ∧ raw == 1) ∧
  (∀ (entry : gmap string pyval) (v : Q),
      entry !! "value" = Some (VNum v) →
      90 < v →
      (entry !! "labels" = None ∨
       ∃ labels, entry !! "labels" = Some (VDict labels) ∧ labels !! "mountpoint" = None) →
      ∃ a r,
        detect default_detector {[ "fs_usage_top3" := VList [VDict entry] ]} = Ok r ∧
        anomalies r = [a] ∧
        Anomaly.metric a = "fs_usage" ∧
        Anomaly.value a = v ∧
        Anomaly.mountpoint a = Some (VStr "unknown") ∧
        Anomaly.message a = "ディスク使用率が高い (unknown: " +:+ format_f 1 v +:+ "%)").
Proof.
  split.
  - simpl. do 3 eexists. split; [vm_compute; reflexivity|].
    split; [vm_compute; reflexivity|]. by vm_compute.
  - intros entry v Hv Hlt Hlabels.
    assert (∃ labels, as_dict (dict_get_default entry "labels" (VDict ∅)) = Ok labels ∧
                      labels !! "mountpoint" = None) as (labels & Hlab & Hmp).
    { unfold dict_get_default.
      destruct Hlabels as [-> | (labels & -> & Hmp)]; simpl; eauto. }
    unfold detect.
    rewrite (run_checks_single_fs_entry entry labels v Hv Hlab Hlt).
    cbv zeta. rewrite bind_Ok_l.
    rewrite calculate_severity_default, bind_Ok_l.
    do 2 eexists. split; [reflexivity|]. simpl.
    rewrite (dict_get_default_absent _ _ _ Hmp). done.
Qed.

(** C2: a summary in which [network_err_per_sec] is present with the value
    [None], as the metrics client stores it for a query without result,
    makes [detect] raise [TypeError]: the comparison with the threshold is
    not guarded against [None]. *)
Theorem detect_raises_on_none_network_err :
  detect default_detector {[ "network_err_per_sec" := VNone ]} = Raise TypeError.
Proof. vm_compute. reflexivity. Qed.

(** ** Which summaries [detect] accepts *)


Ltac use_lookups :=
  repeat match goal with
  | H : ?d !! ?k = Some ?v |- context [subscript ?d ?k] =>
      rewrite (subscript_Some d k v H)
  end.






Lemma dict_get_insert_None (d : gmap string pyval) (k k' : string) :
  dict_get (<[k:=VNone]> d) k' = dict_get (delete k d) k'.
Proof.
  unfold dict_get. destruct (decide (k = k')) as [->|Hne].
  - by rewrite lookup_insert_eq, lookup_delete_eq.
  - by rewrite lookup_insert_ne, lookup_delete_ne.
Qed.

Lemma dict_get_default_insert_ne (d : gmap string pyval) (k k' : string) (v dflt : pyval) :
  k ≠ k' →
  dict_get_default (<[k:=v]> d) k' dflt = dict_get_default (delete k d) k' dflt.
Proof. intros Hne. unfold dict_get_default. by rewrite lookup_insert_ne, lookup_delete_ne. Qed.

(** In the fields read with [.get(k)], a [None] is the same as no field at
    all: these are the checks that test [is not None], compare with [==]
    or test the truth value first. *)
Lemma detect_None_is_absent self summary (k : string) :
  k ∈ "up" :: "fs_usage_top3" :: guarded_fields →
  detect self (<[k:=VNone]> summary) = detect self (delete k summary).
Proof.
  intros Hk. unfold detect. rewrite !run_checks_unfold.
  unfold check_up, check_cpu, check_iowait, check_load1, check_memory, check_swap,
    check_fs, check_fs_readonly, check_network, check_tcp_retrans, check_tcp_overflow.
  rewrite !dict_get_insert_None.
  unfold guarded_fields in Hk.
  repeat (apply elem_of_cons in Hk as [->|Hk]); [.. | by apply elem_of_nil in Hk];
    by rewrite !dict_get_default_insert_ne by done.
Qed.

(** The other three fields read with [.get(k, 0)] raise on [None] in the
    same way, and so does a value of another type. *)
Lemma detect_raises_on_none_unguarded (k : string) :
  k ∈ unguarded_fields →
  detect default_detector {[ k := VNone ]} = Raise TypeError ∧
  detect default_detector {[ k := VStr "n/a" ]} = Raise TypeError.
Proof.
  unfold unguarded_fields. intros Hk.
  repeat (apply elem_of_cons in Hk as [->|Hk]); [.. | by apply elem_of_nil in Hk];
    split; vm_compute; reflexivity.
Qed.

(** A scalar where an entry of [fs_usage_top3] is expected has no [get]. *)
Lemma detect_raises_on_scalar_fs_entry :
  detect default_detector {[ "fs_usage_top3" := VList [VNum 92] ]} = Raise AttributeError.
Proof. vm_compute. reflexivity. Qed.

(** The summary that the metrics client builds when no query has a
    result holds [None] under every key, and [detect] raises on it. *)
Lemma detect_raises_on_all_none :
  detect default_detector (list_to_map ((λ k, (k, VNone)) <$> summary_fields)) =
  Raise TypeError.
Proof. vm_compute. reflexivity. Qed.

(** The empty summary is free of anomalies because the default thresholds
    are not negative: the network check compares the default value 0 of
    the missing field with the configured threshold. *)
Lemma detect_empty_summary_negative_threshold :
  let self := __init__ (Some {[ "network_errors_per_sec" := -1;
                                 "tcp_retrans_per_sec" := 50 ]}) None None in
  ∃ r, detect self ∅ = Ok r ∧ is_anomaly r = true ∧ severity r = "low".
Proof. simpl. eexists. split; [vm_compute; reflexivity|]. by vm_compute. Qed.

#[local] Set Default Proof Using "Type".

(** Drop the section variables that the statement at hand does not mention. *)
Ltac only_used :=
  try clear analyze; try clear fetch; try clear str_item; try clear parse_float;
  try clear repr; try clear format_f.

(** ** The checks as a chain of steps *)

Lemma subscript_Ok (d : gmap string Q) (k : string) (v : Q) :
  subscript d k = Ok v ↔ d !! k = Some v.
Proof.
  only_used.
  unfold subscript. destruct (d !! k) as [x|]; split; intros H; try discriminate H.
  - by injection H as ->.
  - by injection H as ->.
Qed.

Lemma py_gt_true (x : pyval) (t v : Q) :
  py_gt x t = Ok true → to_num x = Ok v → t < v.
Proof.
  only_used.
  destruct x; try discriminate. simpl. intros [= H] [= <-]. by apply Qltb_true.
Qed.

Lemma above_threshold_true self (x : pyval) (k : string) (th v : Q) :
  above_threshold self x k = Ok true →
  subscript (thresholds self) k = Ok th →
  to_num x = Ok v →
  th < v.
Proof.
  only_used.
  unfold above_threshold. intros H Hth Hv. rewrite Hth in H.
  destruct (is_not_none x); [|discriminate]. simpl in H. by eapply py_gt_true.
Qed.

Lemma Qdiv_pos (a c : Q) : 0 < a → 0 < c → 0 < a / c.
Proof. only_used. intros Ha Hc. apply Qlt_shift_div_l; [done|lra]. Qed.

Ltac excess_pos := first [ lra | apply Qdiv_pos; lra ].

Ltac fired e :=
  right; do 3 eexists;
  (split; [reflexivity|]); (split; [reflexivity|]);
  (split; [by apply subscript_Ok|]);
  right; exists e; split; [|reflexivity].

Lemma check_up_step self summary st st' :
  check_up self summary st = Ok st' → step self "up" "system_down" st st'.
Proof.
  only_used.
  unfold check_up. destruct st as [anoms score]. intros H. crack; subst; [|by left].
  right. do 3 eexists. repeat split; [by apply subscript_Ok | by left].
Qed.

Lemma check_cpu_step self summary st st' :
  check_cpu self summary st = Ok st' → step self "cpu_usage" "cpu_high" st st'.
Proof.
  only_used.
  unfold check_cpu. destruct st as [anoms score]. intros H. crack; subst; [|by left].
  match goal with
  | Ha : above_threshold _ _ _ = Ok true, Ht : subscript (thresholds _) _ = Ok ?th,
    Hv : to_num _ = Ok ?v |- _ =>
      pose proof (above_threshold_true _ _ _ _ _ Ha Ht Hv); fired ((v - th) / 2)
  end. excess_pos.
Qed.

Lemma check_iowait_step self summary st st' :
  check_iowait self summary st = Ok st' → step self "cpu_iowait" "iowait_high" st st'.
Proof.
  only_used.
  unfold check_iowait. destruct st as [anoms score]. intros H. crack; subst; [|by left].
  match goal with
  | Ha : above_threshold _ _ _ = Ok true, Ht : subscript (thresholds _) _ = Ok ?th,
    Hv : to_num _ = Ok ?v |- _ =>
      pose proof (above_threshold_true _ _ _ _ _ Ha Ht Hv); fired (v - th)
  end. excess_pos.
Qed.

Lemma check_load1_step self summary st st' :
  check_load1 self summary st = Ok st' → step self "load1" "load_extreme" st st'.
Proof.
  only_used.
  unfold check_load1. destruct st as [anoms score]. intros H.
  crack; subst; [|by left|by left].
  match goal with
  | Ha : py_gt _ _ = Ok true, Hv : to_num _ = Ok ?v |- _ =>
      pose proof (py_gt_true _ _ _ Ha Hv); fired v
  end. excess_pos.
Qed.

Lemma check_memory_step self summary st st' :
  check_memory self summary st = Ok st' → step self "memory_usage" "memory_high" st st'.
Proof.
  only_used.
  unfold check_memory. destruct st as [anoms score]. intros H. crack; subst; [|by left].
  match goal with
  | Ha : above_threshold _ _ _ = Ok true, Ht : subscript (thresholds _) _ = Ok ?th,
    Hv : to_num _ = Ok ?v |- _ =>
      pose proof (above_threshold_true _ _ _ _ _ Ha Ht Hv); fired ((v - th) / 2)
  end. excess_pos.
Qed.

Lemma check_swap_step self summary st st' :
  check_swap self summary st = Ok st' → step self "swap_usage" "swap_high" st st'.
Proof.
  only_used.
  unfold check_swap. destruct st as [anoms score]. intros H. crack; subst; [|by left].
  match goal with
  | Ha : above_threshold _ _ _ = Ok true, Ht : subscript (thresholds _) _ = Ok ?th,
    Hv : to_num _ = Ok ?v |- _ =>
      pose proof (above_threshold_true _ _ _ _ _ Ha Ht Hv); fired (v - th)
  end. excess_pos.
Qed.

Lemma check_fs_entry_step self fs st st' :
  check_fs_entry self fs st = Ok st' → step self "fs_usage" "disk_high" st st'.
Proof.
  only_used.
  unfold check_fs_entry. destruct st as [anoms score]. intros H. crack; subst; [|by left].
  match goal with
  | Ha : above_threshold _ _ _ = Ok true, Ht : subscript (thresholds _) _ = Ok ?th,
    Hv : to_num _ = Ok ?v |- _ =>
      pose proof (above_threshold_true _ _ _ _ _ Ha Ht Hv); fired ((v - th) / 2)
  end. excess_pos.
Qed.

Lemma check_fs_readonly_step self summary st st' :
  check_fs_readonly self summary st = Ok st' → step self "fs_readonly" "fs_readonly" st st'.
Proof.
  only_used.
  unfold check_fs_readonly. destruct st as [anoms score]. intros H.
  crack; subst; [|by left].
  right. do 3 eexists. repeat split; [by apply subscript_Ok | by left].
Qed.

Lemma check_network_step self summary st st' :
  check_network self summary st = Ok st' →
  step self "network_err_per_sec" "network_errors" st st'.
Proof.
  only_used.
  unfold check_network. destruct st as [anoms score]. intros H. crack; subst; [|by left].
  match goal with
  | Ha : py_gt _ ?th = Ok true, Hv : to_num _ = Ok ?v |- _ =>
      pose proof (py_gt_true _ _ _ Ha Hv); fired (v - th)
  end. excess_pos.
Qed.

Lemma check_tcp_retrans_step self summary st st' :
  check_tcp_retrans self summary st = Ok st' →
  step self "tcp_retrans_per_sec" "tcp_retrans" st st'.
Proof.
  only_used.
  unfold check_tcp_retrans. destruct st as [anoms score]. intros H.
  crack; subst; [|by left].
  match goal with
  | Ha : py_gt _ ?th = Ok true, Hv : to_num _ = Ok ?v |- _ =>
      pose proof (py_gt_true _ _ _ Ha Hv); fired ((v - th) / 5)
  end. excess_pos.
Qed.

Lemma check_tcp_overflow_step self summary st st' :
  check_tcp_overflow self summary st = Ok st' →
  step self "tcp_listen_overflow_per_sec" "tcp_overflow" st st'.
Proof.
  only_used.
  unfold check_tcp_overflow. destruct st as [anoms score]. intros H.
  crack; subst; [|by left].
  match goal with
  | Ha : py_gt _ _ = Ok true, Hv : to_num _ = Ok ?v |- _ =>
      pose proof (py_gt_true _ _ _ Ha Hv); fired (v * 2)
  end. excess_pos.
Qed.

Lemma chain_app self (r1 r2 : list (string * string)) (st s1 st' : state) :
  chain self r1 st s1 → chain self r2 s1 st' → chain self (r1 ++ r2) st st'.
Proof.
  only_used.
  revert st. induction r1 as [|[m wk] r1 IH]; intros st; simpl.
  - by intros ->.
  - intros (s0 & Hstep & Hrest) H2. exists s0. split; [done|]. by apply IH.
Qed.

Lemma for_each_fs_chain self (l : list pyval) (st st' : state) :
  for_each (check_fs_entry self) l st = Ok st' →
  chain self (replicate (length l) ("fs_usage", "disk_high")) st st'.
Proof.
  only_used.
  revert st. induction l as [|fs l IH]; intros st H; simpl in *.
  - by injection H as <-.
  - apply bind_Ok in H as (s1 & H1 & H). exists s1.
    split; [by eapply check_fs_entry_step | by apply IH].
Qed.

Lemma check_fs_chain self summary (st st' : state) :
  check_fs self summary st = Ok st' →
  chain self (replicate (fs_entries summary) ("fs_usage", "disk_high")) st st'.
Proof.
  only_used.
  unfold check_fs, fs_entries. intros H.
  destruct (dict_get summary "fs_usage_top3") as [| | |l|];
    try (simpl in H; repeat case_match; by injection H as <-).
  destruct l as [|fs l]; [by injection H as <-|].
  by apply for_each_fs_chain.
Qed.

(** A run of the checks is a chain of steps over [rules_run]. *)
Lemma run_checks_chain self summary (st' : state) :
  run_checks self summary = Ok st' → chain self (rules_run summary) ([], 0) st'.
Proof.
  only_used.
  rewrite run_checks_unfold. intros H.
  apply bind_Ok in H as (s1 & H1 & H). apply bind_Ok in H as (s2 & H2 & H).
  apply bind_Ok in H as (s3 & H3 & H). apply bind_Ok in H as (s4 & H4 & H).
  apply bind_Ok in H as (s5 & H5 & H). apply bind_Ok in H as (s6 & H6 & H).
  apply bind_Ok in H as (s7 & H7 & H). apply bind_Ok in H as (s8 & H8 & H).
  apply bind_Ok in H as (s9 & H9 & H). apply bind_Ok in H as (s10 & H10 & H).
  apply bind_Ok in H as (s11 & H11 & H). injection H as <-.
  unfold rules_run.
  apply (chain_app _ _ _ _ s6).
  { simpl.
    exists s1. split; [by eapply check_up_step|].
    exists s2. split; [by eapply check_cpu_step|].
    exists s3. split; [by eapply check_iowait_step|].
    exists s4. split; [by eapply check_load1_step|].
    exists s5. split; [by eapply check_memory_step|].
    exists s6. split; [by eapply check_swap_step|]. reflexivity. }
  apply (chain_app _ _ _ _ s7); [by eapply check_fs_chain|].
  simpl.
  exists s8. split; [by eapply check_fs_readonly_step|].
  exists s9. split; [by eapply check_network_step|].
  exists s10. split; [by eapply check_tcp_retrans_step|].
  exists s11. split; [by eapply check_tcp_overflow_step|]. reflexivity.
Qed.

(** *** What a chain does to the list of records *)

Lemma chain_records self (rules : list (string * string)) (st st' : state) :
  chain self rules st st' →
  ∃ extra, st'.1 = st.1 ++ extra ∧ Anomaly.metric <$> extra `sublist_of` rules.*1.
Proof.
  only_used.
  revert st. induction rules as [|[m wk] rules IH]; intros st; simpl.
  - intros ->. exists []. by rewrite app_nil_r.
  - intros (s1 & Hstep & Hrest).
    destruct (IH s1 Hrest) as (extra & Heq & Hsub).
    destruct Hstep as [->|(a & w & c & -> & Hm & _ & _)].
    + exists extra. split; [done|]. by apply sublist_cons.
    + exists (a :: extra). simpl in *. rewrite Heq, <- app_assoc. split; [done|].
      rewrite Hm. by apply sublist_skip.
Qed.

(** *** What a chain does to the score *)

Lemma contribution_nonneg (w c : Q) : 0 <= w → contribution w c → 0 <= c ∧ c <= w.
Proof.
  only_used.
  intros Hw [->|(e & He & ->)]; [lra|].
  split; [apply Q.min_glb; lra | apply Q.le_min_l].
Qed.

Lemma contribution_pos (w c : Q) : 0 < w → contribution w c → 0 < c.
Proof. only_used. intros Hw [->|(e & He & ->)]; [done|]. by apply Q.min_glb_lt. Qed.

Lemma Qsum_cons (x : Q) (l : list Q) : Qsum (x :: l) = x + Qsum l.
Proof. only_used. reflexivity. Qed.

Lemma weight_of_nonneg self (wk : string) : weights_above 0 self → 0 <= weight_of self wk.
Proof.
  only_used.
  intros Hw. unfold weight_of.
  destruct (weights self !! wk) as [w|] eqn:E; simpl; [by eapply Hw | lra].
Qed.

Lemma chain_score_bounds self (rules : list (string * string)) (st st' : state) :
  weights_above 0 self →
  chain self rules st st' →
  st.2 <= st'.2 ∧ st'.2 <= st.2 + Qsum (weight_of self <$> rules.*2).
Proof.
  only_used.
  intros Hw. revert st. induction rules as [|[m wk] rules IH]; intros st.
  - simpl. intros ->. unfold Qsum. simpl. lra.
  - intros (s1 & Hstep & Hrest). destruct (IH s1 Hrest) as [Hlo Hhi].
    rewrite fmap_cons, fmap_cons, Qsum_cons. cbn [snd].
    pose proof (weight_of_nonneg self wk Hw) as Hwk.
    destruct Hstep as [->|(a & w & c & -> & _ & Hlook & Hc)]; [lra|].
    destruct (contribution_nonneg w c (Hw _ _ Hlook) Hc) as [Hc0 Hcw].
    assert (weight_of self wk = w) as Hwo by (unfold weight_of; by rewrite Hlook).
    rewrite Hwo in *. cbn [fst snd] in *. lra.
Qed.

Lemma chain_score_positive self (rules : list (string * string)) (st st' : state) :
  (∀ wk w, weights self !! wk = Some w → 0 < w) →
  chain self rules st st' →
  st' = st ∨ ((length st.1 < length st'.1)%nat ∧ st.2 < st'.2).
Proof.
  only_used.
  intros Hw. revert st. induction rules as [|[m wk] rules IH]; intros st; simpl.
  - intros ->. by left.
  - intros (s1 & Hstep & Hrest).
    destruct Hstep as [->|(a & w & c & -> & _ & Hlook & Hc)]; [by apply IH|].
    pose proof (contribution_pos w c (Hw _ _ Hlook) Hc) as Hpos.
    right. destruct (IH _ Hrest) as [-> | [Hlen Hsc]]; simpl in *.
    + rewrite length_app. simpl. split; [lia | lra].
    + rewrite length_app in Hlen. simpl in Hlen. split; [lia | lra].
Qed.

Lemma chain_grows self (rules : list (string * string)) (st st' : state) :
  chain self rules st st' → st' = st ∨ (length st.1 < length st'.1)%nat.
Proof.
  only_used.
  revert st. induction rules as [|[m wk] rules IH]; intros st; simpl.
  - intros ->. by left.
  - intros (s1 & Hstep & Hrest).
    destruct Hstep as [->|(a & w & c & -> & _)]; [by apply IH|].
    right. destruct (IH _ Hrest) as [-> | Hlen]; simpl in *;
      rewrite ?length_app in *; simpl in *; lia.
Qed.

Lemma Qsum_app (l1 l2 : list Q) : Qsum (l1 ++ l2) == Qsum l1 + Qsum l2.
Proof.
  only_used.
  induction l1 as [|x l1 IH].
  - change (Qsum l2 == 0 + Qsum l2). lra.
  - change (x + Qsum (l1 ++ l2) == x + Qsum l1 + Qsum l2). rewrite IH. lra.
Qed.

Lemma Qsum_replicate (n : nat) (x : Q) :
  Qsum (replicate n x) == inject_Z (Z.of_nat n) * x.
Proof.
  only_used.
  induction n as [|n IH].
  - change (0 == 0 * x). ring.
  - change (x + Qsum (replicate n x) == inject_Z (Z.of_nat (S n)) * x).
    rewrite IH, Nat2Z.inj_succ. unfold Z.succ. rewrite inject_Z_plus.
    change (inject_Z 1) with 1. ring.
Qed.

Lemma default_weights_positive :
  ∀ wk w, weights default_detector !! wk = Some w → 0 < w.
Proof.
  only_used.
  change (map_Forall (λ (_ : string) (w : Q), 0 < w) SEVERITY_WEIGHTS).
  unfold SEVERITY_WEIGHTS.
  repeat (apply map_Forall_insert_2; [reflexivity|]).
  apply map_Forall_empty.
Qed.

Lemma default_weights_nonneg : weights_above 0 default_detector.
Proof. only_used. intros wk w H. apply Qlt_le_weak. by eapply default_weights_positive. Qed.

(** ** Bounds on the score *)

(** X1: With no negative weight configured, the [severity_score] of every
    result of [detect] lies between 0 and 100. *)
Theorem severity_score_range self summary (r : DetectionResult) :
  weights_above 0 self →
  detect self summary = Ok r →
  0 <= severity_score r ∧ severity_score r <= 100.
Proof.
  only_used.
  intros Hw H. unfold detect in H.
  apply bind_Ok in H as ([anoms raw] & Hrun & H).
  apply bind_Ok in H as (tier & _ & H). injection H as <-. simpl.
  destruct (chain_score_bounds _ _ _ _ Hw (run_checks_chain _ _ _ Hrun)) as [Hlo _].
  simpl in Hlo. split; [apply Q.min_glb; lra | apply Q.le_min_l].
Qed.

(** X2: With no negative weight configured, the raw score is at least 0
    and at most the sum of the weights of the checks that ran, the
    filesystem weight counted once per entry of [fs_usage_top3]; under the
    default weights that is 310 + 20 * (number of entries). *)
Theorem raw_score_bounded_by_weights :
  (∀ self summary anoms raw,
      weights_above 0 self →
      run_checks self summary = Ok (anoms, raw) →
      0 <= raw ∧ raw <= Qsum (weight_of self <$> (rules_run summary).*2)) ∧
  (∀ summary anoms raw,
      run_checks default_detector summary = Ok (anoms, raw) →
      0 <= raw ∧ raw <= 310 + 20 * inject_Z (Z.of_nat (fs_entries summary))).
Proof.
  only_used.
  assert (∀ self summary anoms raw,
            weights_above 0 self →
            run_checks self summary = Ok (anoms, raw) →
            0 <= raw ∧ raw <= Qsum (weight_of self <$> (rules_run summary).*2)) as Hgen.
  { intros self summary anoms raw Hw Hrun.
    destruct (chain_score_bounds _ _ _ _ Hw (run_checks_chain _ _ _ Hrun)) as [Hlo Hhi].
    simpl in *. split; lra. }
  split; [exact Hgen|].
  intros summary anoms raw Hrun.
  destruct (Hgen _ _ _ _ default_weights_nonneg Hrun) as [Hlo Hhi].
  split; [done|].
  unfold rules_run in Hhi. rewrite !fmap_app, !fmap_replicate in Hhi.
  rewrite !Qsum_app, Qsum_replicate in Hhi.
  assert (weight_of default_detector ("fs_usage", "disk_high").2 = 20) as E20
    by (vm_compute; reflexivity).
  rewrite E20 in Hhi.
  match type of Hhi with
  | _ <= Qsum ?a + (_ + Qsum ?b) =>
      assert (Qsum a == 210) as Ea by (vm_compute; reflexivity);
      assert (Qsum b == 100) as Eb by (vm_compute; reflexivity)
  end.
  rewrite Ea, Eb in Hhi. lra.
Qed.

(** ** Order and number of the records *)

(** X3: The records of a result appear in the order of the checks: their
    metrics form a subsequence of the metrics of the checks run, so there
    are at most 10 records plus one per entry of [fs_usage_top3]. *)
Theorem anomalies_follow_rule_order self summary (r : DetectionResult) :
  detect self summary = Ok r →
  Anomaly.metric <$> anomalies r `sublist_of` (rules_run summary).*1 ∧
  (anomaly_count r ≤ 10 + fs_entries summary)%nat.
Proof.
  only_used.
  intros H. unfold detect in H.
  apply bind_Ok in H as ([anoms raw] & Hrun & H).
  apply bind_Ok in H as (tier & _ & H). injection H as <-. simpl.
  destruct (chain_records _ _ _ _ (run_checks_chain _ _ _ Hrun)) as (extra & Heq & Hsub).
  simpl in Heq. subst anoms. split; [done|].
  apply sublist_length in Hsub. rewrite !length_fmap in Hsub.
  unfold rules_run in Hsub. rewrite !length_app, length_replicate in Hsub.
  simpl in Hsub. lia.
Qed.

(** ** Anomalies and score go together *)

Lemma calculate_severity_zero self (tier : string) :
  (∀ t m, severity_thresholds self !! t = Some m → 0 < m) →
  _calculate_severity self 0 = Ok tier → tier = "normal".
Proof.
  only_used.
  intros Hpos H. unfold _calculate_severity in H.
  repeat match goal with
  | H : _ ≫= _ = Ok _ |- _ =>
      let E := fresh "E" in
      apply bind_Ok in H as (? & E & H); apply subscript_Ok in E; apply Hpos in E
  | H : (if Qle_bool ?a 0 then _ else _) = Ok _ |- _ =>
      destruct (Qle_bool a 0) eqn:?; Qbool_to_prop; [exfalso; lra|]
  end.
  by injection H as <-.
Qed.

Lemma detect_score_and_anomalies self summary (r : DetectionResult) :
  (∀ wk w, weights self !! wk = Some w → 0 < w) →
  (∀ t m, severity_thresholds self !! t = Some m → 0 < m) →
  detect self summary = Ok r →
  (is_anomaly r = true ↔ 0 < severity_score r) ∧
  (is_anomaly r = false → severity r = "normal" ∧ severity_score r = 0).
Proof.
  only_used.
  intros Hw Ht H. unfold detect in H.
  apply bind_Ok in H as ([anoms raw] & Hrun & H).
  apply bind_Ok in H as (tier & Htier & H). injection H as <-. simpl.
  rewrite bool_decide_eq_true, bool_decide_eq_false.
  destruct (chain_score_positive _ _ _ _ Hw (run_checks_chain _ _ _ Hrun))
    as [[= -> ->] | [Hlen Hsc]]; simpl in *.
  - split.
    + split; [lia|]. intros Hpos. exfalso. revert Hpos. by vm_compute.
    + intros _. split; [by eapply calculate_severity_zero | reflexivity].
  - split; [|lia]. split; [|done]. intros _. apply Q.min_glb_lt; lra.
Qed.

(** X4: When every configured weight and every tier minimum is positive,
    [is_anomaly] holds exactly when [severity_score] is positive, and a
    result without anomaly has tier "normal" and score 0. *)
Theorem score_positive_iff_anomaly self summary (r : DetectionResult) :
  (∀ wk w, weights self !! wk = Some w → 0 < w) →
  (∀ t m, severity_thresholds self !! t = Some m → 0 < m) →
  detect self summary = Ok r →
  (is_anomaly r = true ↔ 0 < severity_score r) ∧
  (is_anomaly r = false → severity r = "normal" ∧ severity_score r = 0).
Proof. only_used. apply detect_score_and_anomalies. Qed.

(** ** What [detect] reads *)

(** X5: [detect] reads only the eleven keys of [summary_fields]: two
    summaries that agree on them give the same result or the same
    exception. *)
Theorem detect_reads_only_summary_fields self (s1 s2 : gmap string pyval) :
  (∀ k, k ∈ summary_fields → s1 !! k = s2 !! k) →
  detect self s1 = detect self s2.
Proof.
  only_used.
  intros Hagree.
  assert (∀ k, k ∈ summary_fields →
            dict_get s1 k = dict_get s2 k ∧
            ∀ d, dict_get_default s1 k d = dict_get_default s2 k d) as Hget.
  { intros k Hk. unfold dict_get, dict_get_default. by rewrite (Hagree k Hk). }
  unfold detect. rewrite !run_checks_unfold.
  unfold check_up, check_cpu, check_iowait, check_load1, check_memory, check_swap,
    check_fs, check_fs_readonly, check_network, check_tcp_retrans, check_tcp_overflow.
  destruct (Hget "up") as [-> _]; [in_list|].
  destruct (Hget "cpu_usage") as [-> _]; [in_list|].
  destruct (Hget "cpu_iowait") as [-> _]; [in_list|].
  destruct (Hget "load1") as [-> _]; [in_list|].
  destruct (Hget "memory_usage") as [-> _]; [in_list|].
  destruct (Hget "swap_usage") as [-> _]; [in_list|].
  destruct (Hget "fs_usage_top3") as [-> _]; [in_list|].
  destruct (Hget "fs_readonly") as [_ ->]; [in_list|].
  destruct (Hget "network_err_per_sec") as [_ ->]; [in_list|].
  destruct (Hget "tcp_retrans_per_sec") as [_ ->]; [in_list|].
  destruct (Hget "tcp_listen_overflow_per_sec") as [_ ->]; [in_list|].
  reflexivity.
Qed.

Lemma detect_threshold_agreement
    (th th' w sev : gmap string Q) (summary : gmap string pyval) :
  (∀ k, k ∈ threshold_keys → th !! k = th' !! k) →
  detect {| thresholds := th; weights := w; severity_thresholds := sev |} summary =
  detect {| thresholds := th'; weights := w; severity_thresholds := sev |} summary.
Proof.
  only_used.
  intros Hagree.
  unfold detect. rewrite !run_checks_unfold.
  unfold check_up, check_cpu, check_iowait, check_load1, check_memory, check_swap,
    check_fs, check_fs_readonly, check_network, check_tcp_retrans, check_tcp_overflow,
    _calculate_severity.
  assert (check_fs_entry {| thresholds := th; weights := w; severity_thresholds := sev |} =
          check_fs_entry {| thresholds := th'; weights := w; severity_thresholds := sev |})
    as Hentry.
  { unfold check_fs_entry, above_threshold, subscript. simpl.
    by rewrite (Hagree "disk_usage") by in_list. }
  rewrite Hentry.
  unfold above_threshold, subscript. simpl.
  rewrite (Hagree "cpu_usage"), (Hagree "iowait"), (Hagree "memory_usage"),
    (Hagree "swap_usage"), (Hagree "network_errors_per_sec"),
    (Hagree "tcp_retrans_per_sec") by in_list.
  reflexivity.
Qed.

(** X6: [detect] reads only the seven threshold keys of [threshold_keys];
    in particular the configured [load1_per_cpu] threshold, whatever its
    value and whether present or not, never changes the outcome. *)
Theorem detect_ignores_load1_per_cpu :
  (∀ (th th' w sev : gmap string Q) (summary : gmap string pyval),
      (∀ k, k ∈ threshold_keys → th !! k = th' !! k) →
      detect {| thresholds := th; weights := w; severity_thresholds := sev |} summary =
      detect {| thresholds := th'; weights := w; severity_thresholds := sev |} summary) ∧
  (∀ (th w sev : gmap string Q) (x : Q) (summary : gmap string pyval),
      detect {| thresholds := <["load1_per_cpu" := x]> th; weights := w;
                severity_thresholds := sev |} summary =
      detect {| thresholds := delete "load1_per_cpu" th; weights := w;
                severity_thresholds := sev |} summary).
Proof.
  only_used.
  split; [exact detect_threshold_agreement|].
  intros th w sev x summary. apply detect_threshold_agreement.
  intros k Hk. unfold threshold_keys in Hk.
  repeat (apply elem_of_cons in Hk as [->|Hk]); [.. | by apply elem_of_nil in Hk];
    by rewrite lookup_insert_ne, lookup_delete_ne.
Qed.

(** ** Keys that a configuration cannot leave out *)

Lemma run_checks_needs_network_keys self summary (st : state) :
  run_checks self summary = Ok st →
  is_Some (thresholds self !! "network_errors_per_sec") ∧
  is_Some (thresholds self !! "tcp_retrans_per_sec").
Proof.
  only_used.
  rewrite run_checks_unfold. intros H.
  do 8 (apply bind_Ok in H as (? & _ & H)).
  apply bind_Ok in H as ([a9 s9] & H9 & H).
  apply bind_Ok in H as ([a10 s10] & H10 & _).
  unfold check_network in H9. unfold check_tcp_retrans in H10.
  repeat match goal with
  | H : (let '(_, _) := ?p in _) = Ok _ |- _ => destruct p
  end.
  apply bind_Ok in H9 as (t1 & E1 & _). apply bind_Ok in H10 as (t2 & E2 & _).
  apply subscript_Ok in E1, E2. eauto.
Qed.

(** X7: The network and TCP retransmission checks subscript their
    threshold on every call: with a thresholds dict that lacks
    [network_errors_per_sec] or [tcp_retrans_per_sec], [detect] returns on
    no summary; a non-empty dict passed to the constructor replaces the
    defaults as a whole, and on the empty summary the exception is
    [KeyError("network_errors_per_sec")]. *)
Theorem detect_needs_network_thresholds :
  (∀ self summary,
      thresholds self !! "network_errors_per_sec" = None ∨
      thresholds self !! "tcp_retrans_per_sec" = None →
      is_ok (detect self summary) = false) ∧
  (∀ (th : gmap string Q) w sev,
      size th ≠ 0%nat →
      th !! "network_errors_per_sec" = None →
      detect (__init__ (Some th) w sev) ∅ = Raise (KeyError "network_errors_per_sec")).
Proof.
  only_used.
  split.
  - intros self summary Hmiss.
    destruct (detect self summary) as [r|e] eqn:Hd; [|done]. exfalso.
    unfold detect in Hd. apply bind_Ok in Hd as (st & Hrun & _).
    destruct (run_checks_needs_network_keys _ _ _ Hrun) as [[? E1] [? E2]].
    destruct Hmiss as [E|E]; rewrite E in *; discriminate.
  - intros th w sev Hsize Hmiss. unfold detect.
    rewrite run_checks_unfold.
    unfold check_up, check_cpu, check_iowait, check_load1, check_memory, check_swap,
      check_fs, check_fs_readonly, check_network, above_threshold,
      dict_get, dict_get_default.
    rewrite !lookup_empty. simpl.
    unfold dict_or. rewrite bool_decide_eq_false_2 by done.
    unfold subscript. by rewrite Hmiss.
Qed.

(** X8: On a summary without any of the fields read, [detect] consults
    no weight: for every configuration whose two network thresholds are
    not negative and whose four tier minimums are positive the result is
    the one without anomaly, whatever the weights dict holds. *)
Theorem detect_absent_fields_any_weights self summary (tn tr : Q) :
  (∀ k, k ∈ summary_fields → summary !! k = None) →
  thresholds self !! "network_errors_per_sec" = Some tn → 0 <= tn →
  thresholds self !! "tcp_retrans_per_sec" = Some tr → 0 <= tr →
  (∀ t, t ∈ tier_order → ∃ m, severity_thresholds self !! t = Some m ∧ 0 < m) →
  detect self summary =
  Ok {| is_anomaly := false; anomalies := []; severity := "normal";
        severity_score := 0; anomaly_count := 0 |}.
Proof.
  only_used.
  intros Habs Hn Hn0 Hr Hr0 Htiers.
  destruct (Htiers "critical") as (c & Hc & Hc0); [in_list|].
  destruct (Htiers "high") as (h & Hh & Hh0); [in_list|].
  destruct (Htiers "medium") as (m & Hm & Hm0); [in_list|].
  destruct (Htiers "low") as (l & Hl & Hl0); [in_list|].
  unfold detect. rewrite run_checks_unfold.
  unfold check_up, check_cpu, check_iowait, check_load1, check_memory, check_swap,
    check_fs, check_fs_readonly, check_network, check_tcp_retrans, check_tcp_overflow,
    _calculate_severity.
  rewrite !dict_get_absent, !dict_get_default_absent by (apply Habs; in_list).
  use_lookups. simpl.
  assert (Qltb tn 0 = false) as -> by by apply Qltb_false.
  assert (Qltb tr 0 = false) as -> by by apply Qltb_false.
  simpl. use_lookups. simpl.
  assert (Qle_bool c 0 = false) as -> by by apply Qle_bool_false.
  assert (Qle_bool h 0 = false) as -> by by apply Qle_bool_false.
  assert (Qle_bool m 0 = false) as -> by by apply Qle_bool_false.
  assert (Qle_bool l 0 = false) as -> by by apply Qle_bool_false.
  reflexivity.
Qed.

(** ** Checks with a fixed weight *)

Lemma run_checks_around_fixed self summary (st' : state) :
  run_checks self summary = Ok st' →
  ∃ s1 s7 s8,
    check_up self summary ([], 0) = Ok s1 ∧
    chain self
      ([ ("cpu_usage", "cpu_high"); ("cpu_iowait", "iowait_high");
         ("load1", "load_extreme"); ("memory_usage", "memory_high");
         ("swap_usage", "swap_high") ] ++
       replicate (fs_entries summary) ("fs_usage", "disk_high")) s1 s7 ∧
    check_fs_readonly self summary s7 = Ok s8 ∧
    chain self
      [ ("network_err_per_sec", "network_errors");
        ("tcp_retrans_per_sec", "tcp_retrans");
        ("tcp_listen_overflow_per_sec", "tcp_overflow") ] s8 st'.
Proof.
  only_used.
  rewrite run_checks_unfold. intros H.
  apply bind_Ok in H as (s1 & H1 & H). apply bind_Ok in H as (s2 & H2 & H).
  apply bind_Ok in H as (s3 & H3 & H). apply bind_Ok in H as (s4 & H4 & H).
  apply bind_Ok in H as (s5 & H5 & H). apply bind_Ok in H as (s6 & H6 & H).
  apply bind_Ok in H as (s7 & H7 & H). apply bind_Ok in H as (s8 & H8 & H).
  apply bind_Ok in H as (s9 & H9 & H). apply bind_Ok in H as (s10 & H10 & H).
  apply bind_Ok in H as (s11 & H11 & H). injection H as <-.
  exists s1, s7, s8. split; [done|]. split; [|split; [done|]].
  - apply (chain_app _ _ _ _ s6); [|by eapply check_fs_chain]. simpl.
    exists s2. split; [by eapply check_cpu_step|].
    exists s3. split; [by eapply check_iowait_step|].
    exists s4. split; [by eapply check_load1_step|].
    exists s5. split; [by eapply check_memory_step|].
    exists s6. split; [by eapply check_swap_step|]. reflexivity.
  - simpl.
    exists s9. split; [by eapply check_network_step|].
    exists s10. split; [by eapply check_tcp_retrans_step|].
    exists s11. split; [by eapply check_tcp_overflow_step|]. reflexivity.
Qed.

Lemma chain_score_lower self (rules : list (string * string)) (st st' : state) :
  weights_above 0 self → chain self rules st st' → st.2 <= st'.2.
Proof. only_used. intros Hw Hc. by destruct (chain_score_bounds _ _ _ _ Hw Hc). Qed.

Lemma check_up_score summary (st s1 : state) :
  check_up default_detector summary st = Ok s1 → st.2 <= s1.2.
Proof.
  only_used.
  intros H. destruct (check_up_step _ _ _ _ H) as [->|(a & w & c & -> & _ & Hw & Hc)]; [lra|].
  simpl. destruct (contribution_nonneg w c (default_weights_nonneg _ _ Hw) Hc). lra.
Qed.

Lemma Qmin_100_above (raw : Q) : 100 <= raw → Qmin 100 raw = 100.
Proof.
  only_used.
  intros Hraw. unfold Qmin, GenericMinMax.gmin.
  destruct (100 ?= raw) eqn:Hcmp; try reflexivity.
  apply Qgt_alt in Hcmp. lra.
Qed.

(** X9: Under the default tables, a summary with [up] equal to 0 always
    gets tier "critical", score 100 and the [up] record first, and a
    summary with a positive [fs_readonly] always gets tier "high" or
    "critical" and a [fs_readonly] record, whatever the other fields say,
    provided [detect] returns. *)
Theorem fixed_weight_checks_set_the_tier summary (r : DetectionResult) :
  detect default_detector summary = Ok r →
  (∀ q, summary !! "up" = Some (VNum q) → q == 0 →
     severity r = "critical" ∧ severity_score r = 100 ∧
     Anomaly.metric <$> head (anomalies r) = Some "up") ∧
  (∀ v, summary !! "fs_readonly" = Some (VNum v) → 0 < v →
     (severity r = "high" ∨ severity r = "critical") ∧
     "fs_readonly" ∈ Anomaly.metric <$> anomalies r).
Proof.
  only_used.
  intros H. unfold detect in H.
  apply bind_Ok in H as ([anoms raw] & Hrun & H).
  apply bind_Ok in H as (tier & Htier & H). injection H as <-.
  cbn [severity severity_score anomalies].
  rewrite calculate_severity_default in Htier. injection Htier as <-.
  destruct (run_checks_around_fixed _ _ _ Hrun)
    as ([a1 sc1] & [a7 sc7] & [a8 sc8] & Hup & Hmid & Hro & Hend).
  pose proof (chain_score_lower _ _ _ _ default_weights_nonneg Hmid) as Hmid_sc.
  pose proof (chain_score_lower _ _ _ _ default_weights_nonneg Hend) as Hend_sc.
  pose proof (check_up_score _ _ _ Hup) as Hup_sc.
  destruct (chain_records _ _ _ _ Hmid) as (e1 & He1 & _).
  destruct (chain_records _ _ _ _ Hend) as (e2 & He2 & _).
  cbn [fst snd] in *. subst a7 anoms. clear Hmid Hend Hrun.
  split.
  - intros q Hq Hq0. unfold check_up, dict_get in Hup. rewrite Hq in Hup.
    simpl in Hup. apply Qeq_bool_iff in Hq0. rewrite Hq0 in Hup.
    assert (subscript SEVERITY_WEIGHTS "system_down" = Ok 100) as Hw
      by (vm_compute; reflexivity).
    rewrite Hw, bind_Ok_l in Hup. injection Hup as <- <-.
    assert (sc7 <= sc8) as Hro_sc.
    { destruct (check_fs_readonly_step _ _ _ _ Hro)
        as [[= _ ->]|(a & w & c & [= _ ->] & _ & Hlk & Hc)]; [lra|].
      cbn [snd]. destruct (contribution_nonneg w c (default_weights_nonneg _ _ Hlk) Hc).
      lra. }
    assert (100 <= raw) as Hraw by lra.
    assert (Qle_bool 80 raw = true) as -> by (apply Qle_bool_iff; lra).
    rewrite (Qmin_100_above _ Hraw). destruct (check_fs_readonly_step _ _ _ _ Hro)
        as [[= -> _]|(a & w & c & [= -> _] & _)]; done.
  - intros v Hv Hv0. unfold check_fs_readonly, dict_get_default in Hro.
    rewrite Hv in Hro. simpl in Hro.
    apply Qltb_true in Hv0. rewrite Hv0 in Hro.
    assert (subscript SEVERITY_WEIGHTS "fs_readonly" = Ok 50) as Hw
      by (vm_compute; reflexivity).
    rewrite Hw, bind_Ok_l in Hro. injection Hro as <- <-.
    assert (50 <= raw) as Hraw by lra.
    split.
    + destruct (Qle_bool 80 raw); [by right|].
      assert (Qle_bool 40 raw = true) as -> by (apply Qle_bool_iff; lra). by left.
    + rewrite !fmap_app, !elem_of_app. simpl. rewrite list_elem_of_singleton. tauto.
Qed.

(** ** When a record is reported *)

Lemma py_gt_exceeds (x : pyval) (t : Q) (b : bool) :
  py_gt x t = Ok b → (b = true ↔ exceeds x t).
Proof.
  only_used.
  destruct x as [|v| | |]; try discriminate. simpl. intros [= <-].
  rewrite Qltb_true. unfold exceeds. split.
  - eauto.
  - by intros (v' & [= <-] & ?).
Qed.

Lemma above_threshold_exceeds self (x : pyval) (k : string) (b : bool) :
  above_threshold self x k = Ok b →
  (b = true ↔ ∃ th, thresholds self !! k = Some th ∧ exceeds x th).
Proof.
  only_used.
  unfold above_threshold. destruct (is_not_none x) eqn:Hx.
  - intros H. apply bind_Ok in H as (th & Hth & H). apply subscript_Ok in Hth.
    rewrite (py_gt_exceeds _ _ _ H). split; [eauto|].
    intros (th' & Hth' & He). by assert (th' = th) as -> by congruence.
  - intros [= <-]. split; [done|]. intros (th & _ & v & -> & _). discriminate.
Qed.

Ltac seg_none := left; split; [reflexivity|]; unfold triggered; simpl.
Ltac seg_one :=
  right; eexists; split; [reflexivity|]; split; [reflexivity|]; unfold triggered; simpl.

Lemma check_up_exact self summary (st st' : state) :
  check_up self summary st = Ok st' →
  ∃ e, st'.1 = st.1 ++ e ∧ segment self summary
    {| rule_metric := "up"; rule_limit := IsZero; rule_default := VNone |} e.
Proof.
  only_used.
  unfold check_up, dict_get. destruct st as [anoms score]. intros H.
  destruct (py_eq_num _ _) eqn:Hz.
  - apply bind_Ok in H as (w & _ & [= <-]). eexists. split; [reflexivity|]. seg_one.
    destruct (default VNone (summary !! "up")); try discriminate.
    eexists. split; [done|]. by apply Qeq_bool_iff.
  - injection H as <-. exists []. split; [by rewrite app_nil_r|]. seg_none.
    intros (v & Hv & Hv0). rewrite Hv in Hz. simpl in Hz.
    apply Qeq_bool_iff in Hv0. congruence.
Qed.

Ltac exact_configured H :=
  match type of H with
  | (let '(_, _) := ?st in _) = Ok _ => destruct st as [? ?]
  end;
  apply bind_Ok in H as ([|] & Hhit & H);
  [ apply bind_Ok in H as (? & _ & H); apply bind_Ok in H as (? & _ & H);
    apply bind_Ok in H as (? & _ & H); injection H as <-;
    eexists; split; [reflexivity|]; seg_one;
    by apply (above_threshold_exceeds _ _ _ _ Hhit)
  | injection H as <-; exists []; split; [by rewrite app_nil_r|]; seg_none;
    intros Ht; apply (above_threshold_exceeds _ _ _ _ Hhit) in Ht; discriminate ].

Lemma check_cpu_exact self summary (st st' : state) :
  check_cpu self summary st = Ok st' →
  ∃ e, st'.1 = st.1 ++ e ∧ segment self summary
    {| rule_metric := "cpu_usage"; rule_limit := Configured "cpu_usage";
       rule_default := VNone |} e.
Proof. only_used. unfold check_cpu, dict_get. intros H. exact_configured H. Qed.

Lemma check_iowait_exact self summary (st st' : state) :
  check_iowait self summary st = Ok st' →
  ∃ e, st'.1 = st.1 ++ e ∧ segment self summary
    {| rule_metric := "cpu_iowait"; rule_limit := Configured "iowait";
       rule_default := VNone |} e.
Proof. only_used. unfold check_iowait, dict_get. intros H. exact_configured H. Qed.

Lemma check_memory_exact self summary (st st' : state) :
  check_memory self summary st = Ok st' →
  ∃ e, st'.1 = st.1 ++ e ∧ segment self summary
    {| rule_metric := "memory_usage"; rule_limit := Configured "memory_usage";
       rule_default := VNone |} e.
Proof. only_used. unfold check_memory, dict_get. intros H. exact_configured H. Qed.

Lemma check_swap_exact self summary (st st' : state) :
  check_swap self summary st = Ok st' →
  ∃ e, st'.1 = st.1 ++ e ∧ segment self summary
    {| rule_metric := "swap_usage"; rule_limit := Configured "swap_usage";
       rule_default := VNone |} e.
Proof. only_used. unfold check_swap, dict_get. intros H. exact_configured H. Qed.

Lemma check_load1_exact self summary (st st' : state) :
  check_load1 self summary st = Ok st' →
  ∃ e, st'.1 = st.1 ++ e ∧ segment self summary
    {| rule_metric := "load1"; rule_limit := Fixed 10; rule_default := VNone |} e.
Proof.
  only_used.
  unfold check_load1, dict_get. destruct st as [anoms score]. intros H.
  destruct (is_not_none _) eqn:Hnn.
  - apply bind_Ok in H as ([|] & Hhit & H).
    + apply bind_Ok in H as (? & _ & H). apply bind_Ok in H as (? & _ & H).
      injection H as <-. eexists. split; [reflexivity|]. seg_one.
      by apply (py_gt_exceeds _ _ _ Hhit).
    + injection H as <-. exists []. split; [by rewrite app_nil_r|]. seg_none.
      intros Ht. apply (py_gt_exceeds _ _ _ Hhit) in Ht. discriminate.
  - injection H as <-. exists []. split; [by rewrite app_nil_r|]. seg_none.
    intros (v & Hv & _). rewrite Hv in Hnn. discriminate.
Qed.

Ltac exact_fixed H :=
  match type of H with
  | (let '(_, _) := ?st in _) = Ok _ => destruct st as [? ?]
  end;
  apply bind_Ok in H as ([|] & Hhit & H);
  [ repeat (apply bind_Ok in H as (? & _ & H)); injection H as <-;
    eexists; split; [reflexivity|]; seg_one;
    by apply (py_gt_exceeds _ _ _ Hhit)
  | injection H as <-; exists []; split; [by rewrite app_nil_r|]; seg_none;
    intros Ht; apply (py_gt_exceeds _ _ _ Hhit) in Ht; discriminate ].

Lemma check_fs_readonly_exact self summary (st st' : state) :
  check_fs_readonly self summary st = Ok st' →
  ∃ e, st'.1 = st.1 ++ e ∧ segment self summary
    {| rule_metric := "fs_readonly"; rule_limit := Fixed 0; rule_default := VNum 0 |} e.
Proof. only_used. unfold check_fs_readonly, dict_get_default. intros H. exact_fixed H. Qed.

Lemma check_tcp_overflow_exact self summary (st st' : state) :
  check_tcp_overflow self summary st = Ok st' →
  ∃ e, st'.1 = st.1 ++ e ∧ segment self summary
    {| rule_metric := "tcp_listen_overflow_per_sec"; rule_limit := Fixed 0;
       rule_default := VNum 0 |} e.
Proof. only_used. unfold check_tcp_overflow, dict_get_default. intros H. exact_fixed H. Qed.

Ltac exact_unguarded H :=
  match type of H with
  | (let '(_, _) := ?st in _) = Ok _ => destruct st as [? ?]
  end;
  let Hth := fresh "Hth" in
  apply bind_Ok in H as (? & Hth & H); apply subscript_Ok in Hth;
  apply bind_Ok in H as ([|] & Hhit & H);
  [ repeat (apply bind_Ok in H as (? & _ & H)); injection H as <-;
    eexists; split; [reflexivity|]; seg_one;
    eexists; split; [exact Hth|]; by apply (py_gt_exceeds _ _ _ Hhit)
  | injection H as <-; exists []; split; [by rewrite app_nil_r|]; seg_none;
    intros (th' & Hth' & Ht); rewrite Hth in Hth'; injection Hth' as <-;
    apply (py_gt_exceeds _ _ _ Hhit) in Ht; discriminate ].

Lemma check_network_exact self summary (st st' : state) :
  check_network self summary st = Ok st' →
  ∃ e, st'.1 = st.1 ++ e ∧ segment self summary
    {| rule_metric := "network_err_per_sec";
       rule_limit := Configured "network_errors_per_sec"; rule_default := VNum 0 |} e.
Proof. only_used. unfold check_network, dict_get_default. intros H. exact_unguarded H. Qed.

Lemma check_tcp_retrans_exact self summary (st st' : state) :
  check_tcp_retrans self summary st = Ok st' →
  ∃ e, st'.1 = st.1 ++ e ∧ segment self summary
    {| rule_metric := "tcp_retrans_per_sec";
       rule_limit := Configured "tcp_retrans_per_sec"; rule_default := VNum 0 |} e.
Proof. only_used. unfold check_tcp_retrans, dict_get_default. intros H. exact_unguarded H. Qed.

Lemma check_fs_records self summary (st st' : state) :
  check_fs self summary st = Ok st' →
  ∃ e, st'.1 = st.1 ++ e ∧ Forall (λ a, Anomaly.metric a = "fs_usage") e.
Proof.
  only_used.
  intros H. destruct (chain_records _ _ _ _ (check_fs_chain _ _ _ _ H)) as (e & He & Hsub).
  exists e. split; [done|]. rewrite fmap_replicate in Hsub. simpl in Hsub.
  apply Forall_forall. intros a Ha.
  assert (Anomaly.metric a ∈ replicate (fs_entries summary) "fs_usage") as Hin.
  { eapply elem_of_sublist; [|exact Hsub]. by apply list_elem_of_fmap_2. }
  by apply elem_of_replicate in Hin as [-> _].
Qed.

Lemma segment_metrics self summary (ru : rule) (e : list Anomaly.t) (m : string) :
  segment self summary ru e →
  m ∈ Anomaly.metric <$> e ↔ m = rule_metric ru ∧ triggered self summary ru.
Proof.
  only_used.
  intros [[-> Hno] | (a & -> & Hm & Hyes)]; simpl.
  - rewrite elem_of_nil. tauto.
  - rewrite list_elem_of_singleton, Hm. tauto.
Qed.

Lemma fs_segment_metrics (e : list Anomaly.t) (m : string) :
  Forall (λ a, Anomaly.metric a = "fs_usage") e →
  m ∈ Anomaly.metric <$> e → m = "fs_usage".
Proof.
  only_used.
  intros Hall Hin. apply list_elem_of_fmap in Hin as (a & -> & Ha).
  rewrite Forall_forall in Hall. by apply Hall.
Qed.

(** X10: For each of the ten scalar rules, a result of [detect] holds a
    record for the rule's metric exactly when the rule is triggered: the
    field, read with the rule's default, is a number above the rule's
    limit (equal to 0 for [up]). *)
Theorem record_reported_iff_triggered self summary (r : DetectionResult) (ru : rule) :
  detect self summary = Ok r →
  ru ∈ scalar_rules →
  rule_metric ru ∈ Anomaly.metric <$> anomalies r ↔ triggered self summary ru.
Proof.
  only_used.
  intros H Hru. unfold detect in H.
  apply bind_Ok in H as ([anoms raw] & Hrun & H).
  apply bind_Ok in H as (tier & _ & H). injection H as <-.
  cbn [anomalies]. rewrite run_checks_unfold in Hrun.
  apply bind_Ok in Hrun as (s1 & H1 & Hrun). apply bind_Ok in Hrun as (s2 & H2 & Hrun).
  apply bind_Ok in Hrun as (s3 & H3 & Hrun). apply bind_Ok in Hrun as (s4 & H4 & Hrun).
  apply bind_Ok in Hrun as (s5 & H5 & Hrun). apply bind_Ok in Hrun as (s6 & H6 & Hrun).
  apply bind_Ok in Hrun as (s7 & H7 & Hrun). apply bind_Ok in Hrun as (s8 & H8 & Hrun).
  apply bind_Ok in Hrun as (s9 & H9 & Hrun). apply bind_Ok in Hrun as (s10 & H10 & Hrun).
  apply bind_Ok in Hrun as (s11 & H11 & Hrun). injection Hrun as ->.
  apply check_up_exact in H1 as (e1 & E1 & S1).
  apply check_cpu_exact in H2 as (e2 & E2 & S2).
  apply check_iowait_exact in H3 as (e3 & E3 & S3).
  apply check_load1_exact in H4 as (e4 & E4 & S4).
  apply check_memory_exact in H5 as (e5 & E5 & S5).
  apply check_swap_exact in H6 as (e6 & E6 & S6).
  apply check_fs_records in H7 as (e7 & E7 & S7).
  apply check_fs_readonly_exact in H8 as (e8 & E8 & S8).
  apply check_network_exact in H9 as (e9 & E9 & S9).
  apply check_tcp_retrans_exact in H10 as (e10 & E10 & S10).
  apply check_tcp_overflow_exact in H11 as (e11 & E11 & S11).
  cbn [fst] in *.
  rewrite E11, E10, E9, E8, E7, E6, E5, E4, E3, E2, E1. clear E11 E10 E9 E8 E7 E6 E5 E4 E3 E2 E1.
  rewrite !fmap_app, !elem_of_app, fmap_nil, elem_of_nil.
  rewrite (segment_metrics _ _ _ _ _ S1), (segment_metrics _ _ _ _ _ S2),
    (segment_metrics _ _ _ _ _ S3), (segment_metrics _ _ _ _ _ S4),
    (segment_metrics _ _ _ _ _ S5), (segment_metrics _ _ _ _ _ S6),
    (segment_metrics _ _ _ _ _ S8), (segment_metrics _ _ _ _ _ S9),
    (segment_metrics _ _ _ _ _ S10), (segment_metrics _ _ _ _ _ S11).
  pose proof (fs_segment_metrics e7 (rule_metric ru) S7) as Hfs.
  clear S1 S2 S3 S4 S5 S6 S7 S8 S9 S10 S11.
  unfold scalar_rules in Hru.
  repeat (apply elem_of_cons in Hru as [->|Hru]); [.. | by apply elem_of_nil in Hru];
    cbn [rule_metric] in *; intuition discriminate.
Qed.

(** ** The filesystem loop *)

Lemma check_fs_entry_cases self (fs : pyval) (th w : Q) (anoms : list Anomaly.t) (score : Q) :
  entry_ok fs = true →
  thresholds self !! "disk_usage" = Some th →
  weights self !! "disk_high" = Some w →
  match entry_value fs with
  | Some v =>
      if Qltb th v then
        ∃ a, check_fs_entry self fs (anoms, score) =
               Ok (anoms ++ [a], score + Qmin w ((v - th) / 2)) ∧
             Anomaly.value a = v
      else check_fs_entry self fs (anoms, score) = Ok (anoms, score)
  | None => check_fs_entry self fs (anoms, score) = Ok (anoms, score)
  end.
Proof.
  only_used.
  intros Hok Hth Hw. destruct fs as [| | | |entry]; try discriminate.
  simpl in Hok. apply andb_true_iff in Hok as [Hval Hlab].
  destruct (as_dict (dict_get_default entry "labels" (VDict ∅))) as [labels|] eqn:El;
    [|discriminate].
  unfold entry_value, check_fs_entry, dict_get in *. simpl.
  destruct (entry !! "value") as [[|v| | |]|]; try discriminate; simpl;
    try reflexivity.
  rewrite (above_threshold_num _ _ _ _ Hth).
  destruct (Qltb th v); simpl; [|reflexivity].
  rewrite El. simpl. rewrite (subscript_Some _ _ _ Hth), (subscript_Some _ _ _ Hw). simpl.
  eexists. split; reflexivity.
Qed.

Lemma for_each_fs_entries self (l : list pyval) (th w : Q) :
  Forall (λ fs, entry_ok fs = true) l →
  thresholds self !! "disk_usage" = Some th →
  weights self !! "disk_high" = Some w →
  ∀ anoms score,
  ∃ extra score',
    for_each (check_fs_entry self) l (anoms, score) = Ok (anoms ++ extra, score') ∧
    Anomaly.value <$> extra = filter (λ v, Qltb th v = true) (omap entry_value l) ∧
    score' == score +
      Qsum ((λ v, Qmin w ((v - th) / 2)) <$>
            filter (λ v, Qltb th v = true) (omap entry_value l)).
Proof.
  only_used.
  intros Hall Hth Hw. induction Hall as [|fs l Hfs Hall IH]; intros anoms score.
  - exists [], score. rewrite app_nil_r. repeat split. change (score == score + 0). lra.
  - pose proof (check_fs_entry_cases self fs th w anoms score Hfs Hth Hw) as Hcase.
    cbn [for_each omap list_omap]. 
    destruct (entry_value fs) as [v|] eqn:Ev.
    + rewrite filter_cons. destruct (Qltb th v) eqn:Elt.
      * destruct Hcase as (a & -> & Ha). rewrite bind_Ok_l.
        destruct (IH (anoms ++ [a]) (score + Qmin w ((v - th) / 2)))
          as (extra & score' & -> & Hvals & Hsc).
        exists (a :: extra), score'. rewrite <- app_assoc. split; [done|].
        rewrite decide_True by done. split.
        -- rewrite fmap_cons. by rewrite Ha, Hvals.
        -- rewrite fmap_cons, Qsum_cons, Hsc. lra.
      * rewrite Hcase, bind_Ok_l. rewrite decide_False by done. apply IH.
    + rewrite Hcase, bind_Ok_l. apply IH.
Qed.

(** X11: The filesystem check reports every entry above the disk
    threshold, in list order and without an upper limit on their number:
    the values of the appended records are the values of the entries
    filtered by the threshold, and the score grows by the sum of the
    capped halves of their excess. *)
Theorem check_fs_reports_each_entry_above
    self summary (l : list pyval) (th w : Q) (anoms : list Anomaly.t) (score : Q) :
  summary !! "fs_usage_top3" = Some (VList l) →
  Forall (λ fs, entry_ok fs = true) l →
  thresholds self !! "disk_usage" = Some th →
  weights self !! "disk_high" = Some w →
  ∃ extra score',
    check_fs self summary (anoms, score) = Ok (anoms ++ extra, score') ∧
    Forall (λ a, Anomaly.metric a = "fs_usage") extra ∧
    Anomaly.value <$> extra = filter (λ v, Qltb th v = true) (omap entry_value l) ∧
    score' == score +
      Qsum ((λ v, Qmin w ((v - th) / 2)) <$>
            filter (λ v, Qltb th v = true) (omap entry_value l)).
Proof.
  only_used.
  intros Hl Hall Hth Hw.
  destruct (for_each_fs_entries self l th w Hall Hth Hw anoms score)
    as (extra & score' & Hrun & Hvals & Hsc).
  assert (check_fs self summary (anoms, score) = Ok (anoms ++ extra, score')) as Hfs.
  { destruct l as [|fs l]; [|by rewrite (check_fs_list _ _ fs l)].
    unfold check_fs, dict_get. rewrite Hl. exact Hrun. }
  exists extra, score'. split; [done|]. split; [|done].
  destruct (check_fs_records _ _ _ _ Hfs) as (e & He & Hall').
  simpl in He. by apply app_inv_head in He as ->.
Qed.

(** ** The metrics client *)

Lemma bind_Done {A B} (m : outcome A) (f : A → outcome B) (b : B) :
  m ≫= f = Done b ↔ ∃ a, m = Done a ∧ f a = Done b.
Proof.
  only_used.
  destruct m as [a|e]; simpl; split.
  - eauto.
  - intros (a' & [= <-] & ?); done.
  - done.
  - intros (? & [=] & _).
Qed.

Lemma bind_Done_l {A B} (a : A) (f : A → outcome B) : Done a ≫= f = f a.
Proof. only_used. reflexivity. Qed.

Lemma execute_queries_snoc self (queries : list (string * string)) (name q : string) :
  execute_queries self (queries ++ [(name, q)]) =
  (results ← execute_queries self queries;
   data ← query self q;
   v ← shape_result data;
   Done (<[name := v]> results)).
Proof. only_used. unfold execute_queries. by rewrite foldl_app. Qed.

Lemma execute_queries_spec self (queries : list (string * string))
    (results : gmap string pyval) :
  execute_queries self queries = Done results →
  dom results = list_to_set queries.*1 ∧
  (NoDup queries.*1 →
   ∀ name q, (name, q) ∈ queries →
     ∃ data v, query self q = Done data ∧ shape_result data = Done v ∧
               results !! name = Some v).
Proof.
  only_used.
  revert results. induction queries as [|[name q] queries IH] using rev_ind;
    intros results H.
  - injection H as <-. split; [by rewrite dom_empty_L|].
    intros _ ? ? Hin. by apply elem_of_nil in Hin.
  - rewrite execute_queries_snoc in H.
    apply bind_Done in H as (res0 & H0 & H).
    apply bind_Done in H as (data & Hq & H).
    apply bind_Done in H as (v & Hv & H). injection H as <-.
    destruct (IH res0 H0) as [Hdom Hvals]. split.
    + rewrite dom_insert_L, Hdom, fmap_app, list_to_set_app_L. simpl.
      by rewrite (right_id_L ∅ (∪)), (comm_L (∪)).
    + rewrite fmap_app. intros Hnd name' q' Hin.
      apply NoDup_app in Hnd as (Hnd & Hfresh & _).
      apply elem_of_app in Hin as [Hin|Hin].
      * destruct (Hvals Hnd name' q' Hin) as (data' & v' & ? & ? & Hlook).
        exists data', v'. repeat split; try done.
        rewrite lookup_insert_ne; [done|]. intros <-.
        apply (Hfresh name); [|by left].
        by apply (list_elem_of_fmap_2 fst _ (name, q')).
      * apply list_elem_of_singleton in Hin as [= -> ->].
        exists data, v. by rewrite lookup_insert_eq.
Qed.

Lemma query_failed_request self (q : string) :
  query_fails self q → query self q = Done VNone.
Proof.
  only_used.
  unfold query_fails, query.
  destruct (fetch _ _ q) as [[| | | |d]|]; try done. simpl. by intros ->.
Qed.

Lemma execute_queries_all_failed self (queries : list (string * string)) :
  (∀ q, q ∈ queries.*2 → query_fails self q) →
  ∃ results,
    execute_queries self queries = Done results ∧
    map_Forall (λ _ v, v = VNone) results.
Proof.
  only_used.
  induction queries as [|[name q] queries IH] using rev_ind; intros Hfail.
  - exists ∅. split; [done|]. apply map_Forall_empty.
  - rewrite fmap_app in Hfail. destruct IH as (res0 & H0 & Hall).
    { intros q' Hq'. apply Hfail. apply elem_of_app. by left. }
    exists (<[name := VNone]> res0). split.
    + rewrite execute_queries_snoc, H0, bind_Done_l.
      rewrite query_failed_request; [done|].
      apply Hfail. apply elem_of_app. right. by left.
    + by apply map_Forall_insert_2.
Qed.

(** X12: When [execute_queries] returns, the result has exactly the
    query names as keys, and (names being distinct) each name holds what
    the loop body makes of the answer to its query. *)
Theorem execute_queries_keys_and_values self (queries : list (string * string))
    (results : gmap string pyval) :
  execute_queries self queries = Done results →
  dom results = list_to_set queries.*1 ∧
  (NoDup queries.*1 →
   ∀ name q, (name, q) ∈ queries →
     ∃ data v, query self q = Done data ∧ shape_result data = Done v ∧
               results !! name = Some v).
Proof. only_used. apply execute_queries_spec. Qed.

Lemma execute_queries_outage self (queries : list (string * string)) :
  (∀ q, q ∈ queries.*2 → query_fails self q) →
  ∃ results,
    execute_queries self queries = Done results ∧
    ∀ name, name ∈ queries.*1 → results !! name = Some VNone.
Proof.
  only_used.
  intros Hfail. destruct (execute_queries_all_failed self queries Hfail) as (res & H & Hall).
  exists res. split; [done|]. intros name Hin.
  destruct (execute_queries_spec self queries res H) as [Hdom _].
  assert (name ∈ dom res) as Hd by (rewrite Hdom; by apply elem_of_list_to_set).
  apply elem_of_dom in Hd as [v Hv]. by rewrite (Hall _ _ Hv) in Hv.
Qed.

(** X13: When every query fails (request error or a status other than
    "success"), [execute_queries] does not raise: it returns a dict that
    holds [None] under every query name. *)
Theorem execute_queries_survives_outage self (queries : list (string * string)) :
  (∀ q, q ∈ queries.*2 → query_fails self q) →
  ∃ results,
    execute_queries self queries = Done results ∧
    ∀ name, name ∈ queries.*1 → results !! name = Some VNone.
Proof. only_used. apply execute_queries_outage. Qed.

(** ** Which summaries [detect] accepts, continued *)





Lemma detect_all_none self summary :
  (∀ k, k ∈ summary_fields → summary !! k = Some VNone) →
  detect self summary = Raise TypeError.
Proof.
  only_used.
  intros Hk. unfold detect. rewrite run_checks_unfold.
  unfold check_up, check_cpu, check_iowait, check_load1, check_memory, check_swap,
    check_fs, check_fs_readonly, above_threshold, dict_get, dict_get_default.
  rewrite !Hk by in_list. reflexivity.
Qed.

(** X15: When every query fails and the queries cover the fields that
    [detect] reads, the summary that [execute_queries] returns makes
    [detect] raise [TypeError] under every configuration. *)
Theorem outage_makes_detect_raise
    (client : PrometheusClient) (queries : list (string * string)) :
  (∀ q, q ∈ queries.*2 → query_fails client q) →
  (∀ k, k ∈ summary_fields → k ∈ queries.*1) →
  ∃ summary,
    execute_queries client queries = Done summary ∧
    ∀ self, detect self summary = Raise TypeError.
Proof.
  only_used.
  intros Hfail Hnames.
  destruct (execute_queries_outage client queries Hfail) as (res & Hres & Hnone).
  exists res. split; [done|]. intros self.
  apply detect_all_none. intros k Hin. by apply Hnone, Hnames.
Qed.

(** ** The shape of what the client stores *)

Lemma sample_value_sample (s : gmap string pyval * pyval * string) :
  sample_value (sample s) = Done (VStr s.2).
Proof.
  only_used.
  destruct s as [[labels ts] text]. unfold sample_value, sample, dict_get_default. simpl.
  rewrite lookup_insert_ne by done. by rewrite lookup_singleton_eq.
Qed.

Lemma shape_item_sample (s : gmap string pyval * pyval * string) :
  is_Some (parse_float s.2) →
  shape_item (sample s) = Done (Some (stored_entry s)).
Proof.
  only_used.
  intros [q Hq]. unfold shape_item. rewrite sample_value_sample. simpl.
  destruct s as [[labels ts] text]. simpl in *. rewrite Hq. simpl.
  unfold dict_get_default. by rewrite lookup_insert_eq.
Qed.

Lemma map_each_samples (ss : list (gmap string pyval * pyval * string)) :
  Forall (λ s, is_Some (parse_float s.2)) ss →
  map_each shape_item (sample <$> ss) = Done (Some <$> (stored_entry <$> ss)).
Proof.
  only_used.
  induction 1 as [|s ss Hs _ IH]; [done|].
  cbn [fmap list_fmap map_each]. rewrite (shape_item_sample s Hs), bind_Done_l.
  change (list_fmap _ _ sample ss) with (sample <$> ss). by rewrite IH.
Qed.

Lemma omap_id_Some {A} (l : list A) : omap id (Some <$> l) = l.
Proof. only_used. induction l as [|x l IH]; [done|]. simpl. f_equal. exact IH. Qed.

(** X16: For an answer whose result is a list of well-formed samples,
    the client stores [None] for no sample, the number for one sample and,
    for two or more, the list of [{labels, value}] records in order; every
    such record is an entry that the filesystem check of [detect]
    accepts, with the parsed number as its value. *)
Theorem shape_result_of_vector
    (d : gmap string pyval) (ss : list (gmap string pyval * pyval * string)) :
  d !! "result" = Some (VList (sample <$> ss)) →
  Forall (λ s, is_Some (parse_float s.2)) ss →
  shape_result (VDict d) =
  Done (match ss with
        | [] => VNone
        | [s] => VNum (default 0 (parse_float s.2))
        | _ => VList (stored_entry <$> ss)
        end) ∧
  Forall (λ s, entry_ok (stored_entry s) = true ∧
               entry_value (stored_entry s) = parse_float s.2) ss.
Proof.
  only_used.
  intros Hres Hall. split.
  - unfold shape_result, dict_get_default. simpl. rewrite Hres. simpl.
    destruct ss as [|s1 [|s2 ss]]; [done| |].
    + cbn [fmap list_fmap negb py_truthy length bool_decide].
      unfold shape_single. rewrite sample_value_sample. simpl.
      apply Forall_cons in Hall as [[q Hq] _]. by rewrite Hq.
    + rewrite (map_each_samples _ Hall), !bind_Done_l, omap_id_Some. done.
  - apply (Forall_impl _ _ _ Hall). intros [[labels ts] text] [q Hq]. simpl in *.
    rewrite Hq. unfold entry_ok, dict_get, dict_get_default. simpl.
    rewrite lookup_insert_ne by done. by rewrite lookup_singleton_eq, lookup_insert_eq.
Qed.

Lemma shape_single_vector (d : gmap string pyval) (s : gmap string pyval * pyval * string) :
  d !! "result" = Some (VList [sample s]) →
  is_Some (parse_float s.2) →
  shape_result (VDict d) = Done (VNum (default 0 (parse_float s.2))).
Proof.
  only_used.
  intros Hres [q Hq]. unfold shape_result, dict_get_default. simpl. rewrite Hres. simpl.
  unfold shape_single. rewrite sample_value_sample. simpl. by rewrite Hq.
Qed.

Lemma no_fs_record_without_list self summary (r : DetectionResult) :
  detect self summary = Ok r →
  fs_entries summary = 0%nat →
  "fs_usage" ∉ Anomaly.metric <$> anomalies r.
Proof.
  only_used.
  intros H Hn. unfold detect in H.
  apply bind_Ok in H as ([anoms raw] & Hrun & H).
  apply bind_Ok in H as (tier & _ & H). injection H as <-. cbn [anomalies].
  destruct (chain_records _ _ _ _ (run_checks_chain _ _ _ Hrun)) as (extra & Heq & Hsub).
  simpl in Heq. subst anoms. intros Hin.
  pose proof (elem_of_sublist _ _ _ Hin Hsub) as Hin'.
  unfold rules_run in Hin'. rewrite Hn in Hin'. simpl in Hin'.
  repeat (apply elem_of_cons in Hin' as [Hin'|Hin']); try discriminate.
  by apply elem_of_nil in Hin'.
Qed.

(** X17: When the [fs_usage_top3] query is answered with exactly one
    sample, [execute_queries] stores a bare number under that name, and no
    result of [detect] on that summary holds a [fs_usage] record, however
    high the number. *)
Theorem single_series_fs_is_not_checked
    (client : PrometheusClient) (queries : list (string * string))
    (summary d : gmap string pyval) (q : string)
    (s : gmap string pyval * pyval * string) :
  NoDup queries.*1 →
  ("fs_usage_top3", q) ∈ queries →
  execute_queries client queries = Done summary →
  query client q = Done (VDict d) →
  d !! "result" = Some (VList [sample s]) →
  is_Some (parse_float s.2) →
  summary !! "fs_usage_top3" = Some (VNum (default 0 (parse_float s.2))) ∧
  ∀ self r, detect self summary = Ok r → "fs_usage" ∉ Anomaly.metric <$> anomalies r.
Proof.
  only_used.
  intros Hnd Hin Hrun Hq Hres Hparse.
  destruct (execute_queries_spec client queries summary Hrun) as [_ Hvals].
  destruct (Hvals Hnd _ _ Hin) as (data & v & Hq' & Hv & Hlook).
  rewrite Hq in Hq'. injection Hq' as <-.
  rewrite (shape_single_vector d s Hres Hparse) in Hv. injection Hv as <-.
  split; [done|]. intros self r Hd.
  apply (no_fs_record_without_list _ _ _ Hd).
  unfold fs_entries, dict_get. by rewrite Hlook.
Qed.

Lemma shape_item_stored (item : pyval) (o : option pyval) :
  shape_item item = Done o → ∀ e, o = Some e → is_stored_entry e.
Proof.
  only_used.
  unfold shape_item. intros H.
  apply bind_Done in H as (x & _ & H). destruct (is_not_none x).
  - apply bind_Done in H as (d & _ & H). apply bind_Done in H as (x' & _ & H).
    apply bind_Done in H as (v & _ & H). injection H as <-.
    intros e [= <-]. by eexists _, _.
  - injection H as <-. by intros e.
Qed.

Lemma map_each_stored (items : list pyval) (shaped : list (option pyval)) :
  map_each shape_item items = Done shaped → Forall is_stored_entry (omap id shaped).
Proof.
  only_used.
  revert shaped. induction items as [|item items IH]; intros shaped H; simpl in H.
  - injection H as <-. constructor.
  - apply bind_Done in H as (o & Ho & H). apply bind_Done in H as (rest & Hrest & H).
    injection H as <-. specialize (IH _ Hrest). simpl.
    destruct o as [e|]; simpl; [|done].
    constructor; [|done]. by eapply shape_item_stored.
Qed.

(** X18: Whatever the server answers, every value that
    [execute_queries] stores is [None], a number, or a list of dicts with
    exactly the keys [labels] and [value], the value being a number. *)
Theorem execute_queries_stores_three_shapes
    self (queries : list (string * string)) (results : gmap string pyval) :
  execute_queries self queries = Done results →
  map_Forall (λ _ v, stored_shape v) results.
Proof.
  only_used.
  revert results. induction queries as [|[name q] queries IH] using rev_ind;
    intros results H.
  - injection H as <-. apply map_Forall_empty.
  - rewrite execute_queries_snoc in H.
    apply bind_Done in H as (res0 & H0 & H).
    apply bind_Done in H as (data & _ & H).
    apply bind_Done in H as (v & Hv & H). injection H as <-.
    apply map_Forall_insert_2; [|by apply IH].
    clear -Hv. unfold shape_result in Hv.
    destruct (is_not_none data); [|injection Hv as <-; by left].
    apply bind_Done in Hv as (d & _ & Hv).
    destruct (negb (py_truthy _)); [injection Hv as <-; by left|].
    destruct (dict_get_default d "result" (VList [])) as [| | |items|d']; try discriminate.
    + assert (stored_shape v ∨
              ∃ shaped, map_each shape_item items = Done shaped ∧
                        v = VList (omap id shaped)) as [?|(shaped & Hm & ->)]; [|done|].
      { destruct items as [|item [|item2 items]].
        - right. apply bind_Done in Hv as (shaped & ? & [= <-]). eauto.
        - left. unfold shape_single in Hv. apply bind_Done in Hv as (x & _ & Hv).
          destruct (is_not_none x).
          + apply bind_Done in Hv as (y & _ & [= <-]). right. by left.
          + injection Hv as <-. by left.
        - right. apply bind_Done in Hv as (shaped & ? & [= <-]). eauto. }
      right. right. eexists. split; [done|]. by eapply map_each_stored.
    + by destruct (bool_decide _).
Qed.

(** ** utils.py *)


(** A unit outside the table is printed as given, after a division by
    the divisor of "MB". *)
Lemma format_bytes_unit_table (v : Q) (unit : string) :
  divisors !! unit = None →
  format_bytes (VNum v) unit = Done (format_f 1 (v / 1024 ^ 2) +:+ " " +:+ unit) ∧
  format_bytes (VNum v) "MB" = Done (format_f 1 (v / 1024 ^ 2) +:+ " MB").
Proof.
  only_used.
  intros Hunit. unfold format_bytes. simpl. rewrite Hunit. split; reflexivity.
Qed.

(** ** Configuration and client *)

Lemma unset_false (value : option string) :
  unset value = false ↔ ∃ s, value = Some s ∧ s ≠ "".
Proof.
  only_used.
  destruct value as [s|]; simpl.
  - rewrite bool_decide_eq_false. split; [eauto|]. by intros (? & [= <-] & ?).
  - split; [done|]. by intros (? & ? & _).
Qed.

Lemma str_or_default (dflt : option string) : str_or None dflt = dflt.
Proof. only_used. reflexivity. Qed.

(** X20: [validate_config] succeeds exactly when the three variables
    are set to non-empty strings; then the client built without arguments
    queries [PROM_URL + "/api/v1/query"]; otherwise the unset names are
    listed, in the order INSTANCE_ID, PROM_URL, API_KEY, in the first of
    two logged messages. *)
Theorem validate_config_then_client (I P A : option string) :
  ((validate_config I P A).1 = true ↔
   ∃ i p a, I = Some i ∧ P = Some p ∧ A = Some a ∧ i ≠ "" ∧ p ≠ "" ∧ a ≠ "") ∧
  ((validate_config I P A).1 = true →
   ∃ p, P = Some p ∧ p ≠ "" ∧
        query_url (client_init I P A None None None) = p +:+ "/api/v1/query") ∧
  ((validate_config I P A).1 = false →
   missing_vars I P A ≠ [] ∧
   missing_vars I P A `sublist_of` ["INSTANCE_ID"; "PROM_URL"; "API_KEY"] ∧
   (validate_config I P A).2 =
     [ "必須環境変数が設定されていません: " +:+ String.concat ", " (missing_vars I P A);
       ".env ファイルを確認してください" ]).
Proof.
  only_used.
  assert ((validate_config I P A).1 = true ↔
          unset I = false ∧ unset P = false ∧ unset A = false) as Hiff.
  { unfold validate_config, missing_vars. rewrite !filter_cons, filter_nil. simpl.
    destruct (unset I), (unset P), (unset A);
      repeat case_decide; simpl; try done; intuition discriminate. }
  split; [|split].
  - rewrite Hiff, !unset_false. split.
    + intros ((i & -> & ?) & (p & -> & ?) & (a & -> & ?)). by exists i, p, a.
    + intros (i & p & a & -> & -> & -> & ? & ? & ?). eauto 10.
  - intros Hok. apply Hiff in Hok as (_ & Hp & _).
    apply unset_false in Hp as (p & -> & Hp). exists p. done.
  - intros Hbad. unfold validate_config in *.
    destruct (negb (bool_decide (length (missing_vars I P A) = 0%nat))) eqn:E;
      [|discriminate].
    apply negb_true_iff, bool_decide_eq_false in E. split; [|split; [|done]].
    + intros Hnil. by rewrite Hnil in E.
    + unfold missing_vars. rewrite !filter_cons, filter_nil. simpl.
      repeat case_decide; simpl;
        repeat first [ apply sublist_skip | apply sublist_cons | apply sublist_nil ].
Qed.

(** ** main.py *)

Ltac in_table :=
  cbv [SUMMARY_QUERIES fmap list_fmap fst];
  repeat first [ apply list_elem_of_here | apply list_elem_of_further ].

Lemma summary_fields_are_queried : ∀ k, k ∈ summary_fields → k ∈ SUMMARY_QUERIES.*1.
Proof.
  only_used.
  intros k Hk. unfold summary_fields in Hk.
  repeat (apply elem_of_cons in Hk as [->|Hk]); [.. | by apply elem_of_nil in Hk];
    in_table.
Qed.

Lemma default_tiers_positive :
  ∀ t m, severity_thresholds default_detector !! t = Some m → 0 < m.
Proof.
  only_used.
  change (map_Forall (λ (_ : string) (m : Q), 0 < m) SEVERITY_THRESHOLDS).
  unfold SEVERITY_THRESHOLDS.
  repeat (apply map_Forall_insert_2; [reflexivity|]).
  apply map_Forall_empty.
Qed.

Lemma format_summary_all_none (summary : gmap string pyval) :
  (∀ name, name ∈ SUMMARY_QUERIES.*1 → summary !! name = Some VNone) →
  ∃ text, format_summary summary = Done text.
Proof.
  only_used.
  intros Hnone. unfold format_summary, dict_get, dict_get_default.
  rewrite !Hnone by in_table. eexists. reflexivity.
Qed.

(** X21: [main] returns 1 when the configuration is incomplete, and 1
    when fetching the summary raises; every code it
    returns is 0 or 1; and it returns 0 only after a valid configuration,
    a fetched summary and a detection result without anomaly, of tier
    "normal" and score 0. *)
Theorem main_exit_code (argv : list string) (I P A : option string) :
  ((validate_config I P A).1 = false → main argv I P A = Done 1%Z) ∧
  (∀ e, execute_queries (client_init I P A None None None) SUMMARY_QUERIES = Fail e →
        main argv I P A = Done 1%Z) ∧
  (∀ code, main argv I P A = Done code → code = 0%Z ∨ code = 1%Z) ∧
  (main argv I P A = Done 0%Z →
   (validate_config I P A).1 = true ∧
   ∃ summary r,
     execute_queries (client_init I P A None None None) SUMMARY_QUERIES = Done summary ∧
     detect default_detector summary = Ok r ∧
     anomalies r = [] ∧ severity r = "normal" ∧ severity_score r = 0).
Proof.
  only_used.
  unfold main. generalize SUMMARY_QUERIES DETAILED_QUERIES. intros squeries dqueries.
  destruct (validate_config I P A).1 eqn:Hcfg; simpl.
  2: { repeat split; try done.
       intros code [= <-]. by right. }
  split; [done|].
  destruct (execute_queries _ squeries) as [summary|e0] eqn:Hfetch.
  2: { split; [done|]. split; [intros code [= <-]; by right|done]. }
  split; [done|].
  destruct (format_summary summary) as [text|e1]; simpl; [|done].
  fold default_detector.
  destruct (detect default_detector summary) as [r|e2] eqn:Hdet; simpl; [|done].
  assert (∀ code,
    ((if is_anomaly r || bool_decide ("--detailed" ∈ argv)
      then execute_queries (client_init I P A None None None) dqueries
           ≫= λ d, Done (Some d)
      else Done None)
     ≫= λ detailed, Done (if is_anomaly r then 1%Z else 0%Z)) = Done code →
    code = (if is_anomaly r then 1%Z else 0%Z)) as Hcode.
  { intros code H. apply bind_Done in H as (? & _ & H). by injection H as <-. }
  split.
  - intros code H. apply Hcode in H as ->. destruct (is_anomaly r); auto.
  - intros H. apply Hcode in H. destruct (is_anomaly r) eqn:Hanom; [discriminate|].
    split; [done|]. exists summary, r. split; [done|]. split; [done|].
    destruct (detect_score_and_anomalies _ _ _ default_weights_positive
                default_tiers_positive Hdet) as [_ Hquiet].
    destruct (Hquiet Hanom) as [-> ->]. split; [|done].
    unfold detect in Hdet. apply bind_Ok in Hdet as ([anoms raw] & _ & Hdet).
    apply bind_Ok in Hdet as (tier & _ & Hdet). injection Hdet as <-.
    cbn [is_anomaly anomalies] in *. apply bool_decide_eq_false in Hanom.
    destruct anoms; [done|]. simpl in Hanom. lia.
Qed.

(** X22: With a valid configuration, when every summary query fails,
    [main] does not return an exit code: the [TypeError] raised by
    [detect] on the all-[None] summary leaves it. *)
Theorem main_crashes_on_outage (argv : list string) (I P A : option string) :
  (validate_config I P A).1 = true →
  (∀ q, q ∈ SUMMARY_QUERIES.*2 → query_fails (client_init I P A None None None) q) →
  main argv I P A = Fail (Std TypeError).
Proof.
  only_used.
  intros Hcfg Hfail. unfold main. rewrite Hcfg. cbn [negb].
  destruct (execute_queries_outage _ _ Hfail) as (summary & -> & Hnone).
  destruct (format_summary_all_none summary Hnone) as [text ->]. rewrite bind_Done_l.
  fold default_detector. rewrite detect_all_none; [done|].
  intros k Hk. by apply Hnone, summary_fields_are_queried.
Qed.









End Detect.

(** ** The statements at concrete inputs *)

Lemma detect_classifies_raw_score_witness :
  let summary : gmap string pyval := {[ "up" := VNum 0; "fs_readonly" := VNum 1 ]} in
  ∃ r, detect format_fixed repr_kind default_detector summary = Ok r ∧
    ∃ anoms raw,
      run_checks format_fixed repr_kind default_detector summary = Ok (anoms, raw) ∧
      _calculate_severity default_detector raw = Ok (severity r) ∧
      anomalies r = anoms ∧
      severity_score r = Qmin 100 raw.
Proof.
  intros summary.
  destruct (detect format_fixed repr_kind default_detector summary) as [r|e] eqn:Hd;
    [|vm_compute in Hd; discriminate Hd].
  exists r. split; [reflexivity|].
  exact (proj1 (detect_classifies_raw_score format_fixed repr_kind)
           default_detector summary r Hd).
Defined.

Lemma detect_absent_fields_witness :
  (∀ k, k ∈ summary_fields → (∅ : gmap string pyval) !! k = None) ∧
  detect format_fixed repr_kind default_detector ∅ =
  Ok {| is_anomaly := false; anomalies := []; severity := "normal";
        severity_score := 0; anomaly_count := 0 |}.
Proof.
  split.
  - intros k _. apply lookup_empty.
  - apply detect_absent_fields. intros k _. apply lookup_empty.
Defined.

Lemma default_tiers_configured :
  ∀ t, t ∈ tier_order → is_Some (severity_thresholds default_detector !! t).
Proof.
  intros t Ht. unfold tier_order in Ht.
  repeat (apply elem_of_cons in Ht as [->|Ht]); [.. | by apply elem_of_nil in Ht];
    vm_compute; eexists; reflexivity.
Defined.

Lemma calculate_severity_highest_tier_witness :
  (∀ t, t ∈ tier_order → is_Some (severity_thresholds default_detector !! t)) ∧
  _calculate_severity default_detector 50 =
    Ok (classify_spec (severity_thresholds default_detector) 50) ∧
  40 <= 50 ∧ 50 < 80 ∧
  _calculate_severity default_detector 50 = Ok "high".
Proof.
  split; [exact default_tiers_configured|].
  split; [exact (proj1 calculate_severity_highest_tier default_detector 50
                   default_tiers_configured)|].
  assert (40 <= 50) as H1 by (vm_compute; discriminate).
  assert (50 < 80) as H2 by (vm_compute; reflexivity).
  split; [exact H1|]. split; [exact H2|].
  exact (proj1 (proj2 (proj2 (proj2 (proj2 calculate_severity_highest_tier 50)))) H1 H2).
Defined.

Lemma calculate_severity_monotone_witness :
  10 <= 50 ∧
  ∃ (t1 t2 : string) (n1 n2 : nat),
    _calculate_severity default_detector 10 = Ok t1 ∧
    _calculate_severity default_detector 50 = Ok t2 ∧
    tier_rank t1 = Some n1 ∧ tier_rank t2 = Some n2 ∧ (n1 ≤ n2)%nat.
Proof.
  assert (10 <= 50) as H by (vm_compute; discriminate).
  split; [exact H | exact (calculate_severity_monotone 10 50 H)].
Defined.

Lemma cpu_usage_boundary_tagging_witness :
  let summary : gmap string pyval := {[ "cpu_usage" := VNum 97 ]} in
  summary !! "cpu_usage" = Some (VNum 97) ∧
  thresholds default_detector !! "cpu_usage" = Some 80 ∧
  weights default_detector !! "cpu_high" = Some 30 ∧
  80 < 97 ∧
  ∃ a,
    check_cpu format_fixed default_detector summary ([], 0) =
      Ok ([] ++ [a], 0 + Qmin 30 ((97 - 80) / 2)) ∧
    Anomaly.metric a = "cpu_usage" ∧
    (97 < 95 → Anomaly.severity a = "warning") ∧
    (95 <= 97 → Anomaly.severity a = "critical").
Proof.
  intros summary.
  assert (summary !! "cpu_usage" = Some (VNum 97)) as H1 by (vm_compute; reflexivity).
  assert (thresholds default_detector !! "cpu_usage" = Some 80) as H2
    by (vm_compute; reflexivity).
  assert (weights default_detector !! "cpu_high" = Some 30) as H3
    by (vm_compute; reflexivity).
  assert (80 < 97) as H4 by (vm_compute; reflexivity).
  repeat (split; [assumption|]).
  exact (proj1 (cpu_usage_boundary_tagging format_fixed repr_kind)
           default_detector summary [] 0 97 80 30 H1 H2 H3 H4).
Defined.

Lemma fs_usage_checked_per_entry_witness :
  let entry : gmap string pyval := {[ "value" := VNum 96 ]} in
  entry !! "value" = Some (VNum 96) ∧
  90 < 96 ∧
  entry !! "labels" = None ∧
  ∃ a r,
    detect format_fixed repr_kind default_detector
      {[ "fs_usage_top3" := VList [VDict entry] ]} = Ok r ∧
    anomalies r = [a] ∧
    Anomaly.metric a = "fs_usage" ∧
    Anomaly.value a = 96 ∧
    Anomaly.mountpoint a = Some (VStr "unknown") ∧
    Anomaly.message a = "ディスク使用率が高い (unknown: " +:+ format_fixed 1 96 +:+ "%)".
Proof.
  intros entry.
  assert (entry !! "value" = Some (VNum 96)) as H1 by (vm_compute; reflexivity).
  assert (90 < 96) as H2 by (vm_compute; reflexivity).
  assert (entry !! "labels" = None) as H3 by (vm_compute; reflexivity).
  repeat (split; [assumption|]).
  exact (proj2 (fs_usage_checked_per_entry format_fixed repr_kind)
           entry 96 H1 H2 (or_introl H3)).
Defined.

Lemma detect_result_consistent_witness :
  let summary : gmap string pyval := {[ "up" := VNum 0; "cpu_usage" := VNum 97 ]} in
  ∃ r, detect format_fixed repr_kind default_detector summary = Ok r ∧
    anomaly_count r = 2%nat ∧
    (is_anomaly r = true ↔ anomalies r ≠ []) ∧
    anomaly_count r = length (anomalies r) ∧
    Forall record_ok (anomalies r).
Proof.
  intros summary.
  destruct (detect format_fixed repr_kind default_detector summary) as [r|e] eqn:Hd;
    [|vm_compute in Hd; discriminate Hd].
  exists r. split; [reflexivity|].
  split; [vm_compute in Hd; injection Hd as <-; reflexivity|].
  exact (detect_result_consistent format_fixed repr_kind default_detector summary r Hd).
Defined.

(** ** The further statements at concrete inputs *)

Arguments Done {A} a.
Arguments Fail {A} e.

Ltac ran H := vm_compute in H; discriminate H.

Lemma severity_score_range_witness :
  let summary : gmap string pyval := {[ "up" := VNum 0; "fs_readonly" := VNum 1 ]} in
  weights_above 0 default_detector ∧
  ∃ r, detect format_fixed repr_kind default_detector summary = Ok r ∧
    0 <= severity_score r ∧ severity_score r <= 100.
Proof.
  intros summary. split; [exact default_weights_nonneg|].
  destruct (detect format_fixed repr_kind default_detector summary) as [r|e] eqn:Hd;
    [|ran Hd].
  exists r. split; [reflexivity|].
  exact (severity_score_range format_fixed repr_kind default_detector summary r
           default_weights_nonneg Hd).
Defined.

Lemma raw_score_bounded_by_weights_witness :
  let summary : gmap string pyval := {[ "up" := VNum 0; "fs_readonly" := VNum 1 ]} in
  ∃ anoms raw,
    run_checks format_fixed repr_kind default_detector summary = Ok (anoms, raw) ∧
    0 <= raw ∧ raw <= 310 + 20 * inject_Z (Z.of_nat (fs_entries summary)).
Proof.
  intros summary.
  destruct (run_checks format_fixed repr_kind default_detector summary)
    as [[anoms raw]|e] eqn:Hrun; [|ran Hrun].
  exists anoms, raw. split; [reflexivity|].
  exact (proj2 (raw_score_bounded_by_weights format_fixed repr_kind) summary anoms raw Hrun).
Defined.

Lemma anomalies_follow_rule_order_witness :
  let summary : gmap string pyval := {[ "fs_readonly" := VNum 1; "cpu_usage" := VNum 97 ]} in
  ∃ r, detect format_fixed repr_kind default_detector summary = Ok r ∧
    Anomaly.metric <$> anomalies r `sublist_of` (rules_run summary).*1 ∧
    (anomaly_count r ≤ 10 + fs_entries summary)%nat.
Proof.
  intros summary.
  destruct (detect format_fixed repr_kind default_detector summary) as [r|e] eqn:Hd;
    [|ran Hd].
  exists r. split; [reflexivity|].
  exact (anomalies_follow_rule_order format_fixed repr_kind default_detector summary r Hd).
Defined.

Lemma score_positive_iff_anomaly_witness :
  let summary : gmap string pyval := {[ "tcp_listen_overflow_per_sec" := VNum 0.05 ]} in
  (∀ wk w, weights default_detector !! wk = Some w → 0 < w) ∧
  (∀ t m, severity_thresholds default_detector !! t = Some m → 0 < m) ∧
  ∃ r, detect format_fixed repr_kind default_detector summary = Ok r ∧
    (is_anomaly r = true ↔ 0 < severity_score r) ∧
    (is_anomaly r = false → severity r = "normal" ∧ severity_score r = 0).
Proof.
  intros summary.
  split; [exact default_weights_positive|]. split; [exact default_tiers_positive|].
  destruct (detect format_fixed repr_kind default_detector summary) as [r|e] eqn:Hd;
    [|ran Hd].
  exists r. split; [reflexivity|].
  exact (score_positive_iff_anomaly format_fixed repr_kind default_detector summary r
           default_weights_positive default_tiers_positive Hd).
Defined.

Lemma fields_agree_with_extra_key :
  ∀ k, k ∈ summary_fields →
       (∅ : gmap string pyval) !! k = ({[ "load5" := VNum 3 ]} : gmap string pyval) !! k.
Proof.
  intros k Hk. unfold summary_fields in Hk.
  repeat (apply elem_of_cons in Hk as [->|Hk]); [.. | by apply elem_of_nil in Hk];
    vm_compute; reflexivity.
Defined.

Lemma detect_reads_only_summary_fields_witness :
  (∀ k, k ∈ summary_fields →
        (∅ : gmap string pyval) !! k = ({[ "load5" := VNum 3 ]} : gmap string pyval) !! k) ∧
  detect format_fixed repr_kind default_detector ∅ =
  detect format_fixed repr_kind default_detector {[ "load5" := VNum 3 ]}.
Proof.
  split; [exact fields_agree_with_extra_key|].
  exact (detect_reads_only_summary_fields format_fixed repr_kind default_detector
           ∅ {[ "load5" := VNum 3 ]} fields_agree_with_extra_key).
Defined.

Lemma thresholds_agree_without_load1 :
  ∀ k, k ∈ threshold_keys →
       THRESHOLDS !! k = (<["load1_per_cpu" := 99]> THRESHOLDS) !! k.
Proof.
  intros k Hk. unfold threshold_keys in Hk.
  repeat (apply elem_of_cons in Hk as [->|Hk]); [.. | by apply elem_of_nil in Hk];
    vm_compute; reflexivity.
Defined.

Lemma detect_ignores_load1_per_cpu_witness :
  let summary : gmap string pyval := {[ "load1" := VNum 12 ]} in
  (∀ k, k ∈ threshold_keys →
        THRESHOLDS !! k = (<["load1_per_cpu" := 99]> THRESHOLDS) !! k) ∧
  detect format_fixed repr_kind
    {| thresholds := THRESHOLDS; weights := SEVERITY_WEIGHTS;
       severity_thresholds := SEVERITY_THRESHOLDS |} summary =
  detect format_fixed repr_kind
    {| thresholds := <["load1_per_cpu" := 99]> THRESHOLDS; weights := SEVERITY_WEIGHTS;
       severity_thresholds := SEVERITY_THRESHOLDS |} summary.
Proof.
  intros summary. split; [exact thresholds_agree_without_load1|].
  exact (proj1 (detect_ignores_load1_per_cpu format_fixed repr_kind)
           THRESHOLDS (<["load1_per_cpu" := 99]> THRESHOLDS) SEVERITY_WEIGHTS
           SEVERITY_THRESHOLDS summary thresholds_agree_without_load1).
Defined.

Lemma detect_needs_network_thresholds_witness :
  let self := __init__ (Some {[ "cpu_usage" := 50 ]}) None None in
  let summary : gmap string pyval := {[ "cpu_usage" := VNum 10 ]} in
  (thresholds self !! "network_errors_per_sec" = None ∨
   thresholds self !! "tcp_retrans_per_sec" = None) ∧
  is_ok (detect format_fixed repr_kind self summary) = false.
Proof.
  intros self summary.
  assert (thresholds self !! "network_errors_per_sec" = None ∨
          thresholds self !! "tcp_retrans_per_sec" = None) as H
    by (left; vm_compute; reflexivity).
  split; [exact H|].
  exact (proj1 (detect_needs_network_thresholds format_fixed repr_kind) self summary H).
Defined.

Lemma default_tiers_positive_in_order :
  ∀ t, t ∈ tier_order →
       ∃ m, severity_thresholds default_detector !! t = Some m ∧ 0 < m.
Proof.
  intros t Ht. unfold tier_order in Ht.
  repeat (apply elem_of_cons in Ht as [->|Ht]); [.. | by apply elem_of_nil in Ht];
    eexists; split; vm_compute; reflexivity.
Defined.

Lemma detect_absent_fields_any_weights_witness :
  let self := {| thresholds := THRESHOLDS; weights := ∅;
                 severity_thresholds := SEVERITY_THRESHOLDS |} in
  (∀ k, k ∈ summary_fields → (∅ : gmap string pyval) !! k = None) ∧
  thresholds self !! "network_errors_per_sec" = Some 10 ∧ 0 <= 10 ∧
  thresholds self !! "tcp_retrans_per_sec" = Some 50 ∧ 0 <= 50 ∧
  (∀ t, t ∈ tier_order → ∃ m, severity_thresholds self !! t = Some m ∧ 0 < m) ∧
  detect format_fixed repr_kind self ∅ =
  Ok {| is_anomaly := false; anomalies := []; severity := "normal";
        severity_score := 0; anomaly_count := 0 |}.
Proof.
  intros self.
  assert (∀ k, k ∈ summary_fields → (∅ : gmap string pyval) !! k = None) as H1
    by (intros k _; apply lookup_empty).
  assert (thresholds self !! "network_errors_per_sec" = Some 10) as H2
    by (vm_compute; reflexivity).
  assert (0 <= 10) as H3 by (vm_compute; discriminate).
  assert (thresholds self !! "tcp_retrans_per_sec" = Some 50) as H4
    by (vm_compute; reflexivity).
  assert (0 <= 50) as H5 by (vm_compute; discriminate).
  repeat (split; [assumption|]). split; [exact default_tiers_positive_in_order|].
  exact (detect_absent_fields_any_weights format_fixed repr_kind self ∅ 10 50
           H1 H2 H3 H4 H5 default_tiers_positive_in_order).
Defined.

Lemma fixed_weight_checks_set_the_tier_witness :
  let summary : gmap string pyval := {[ "up" := VNum 0; "cpu_usage" := VNum 50 ]} in
  summary !! "up" = Some (VNum 0) ∧ 0 == 0 ∧
  ∃ r, detect format_fixed repr_kind default_detector summary = Ok r ∧
    severity r = "critical" ∧ severity_score r = 100 ∧
    Anomaly.metric <$> head (anomalies r) = Some "up".
Proof.
  intros summary.
  assert (summary !! "up" = Some (VNum 0)) as H1 by (vm_compute; reflexivity).
  assert (0 == 0) as H2 by reflexivity.
  split; [exact H1|]. split; [exact H2|].
  destruct (detect format_fixed repr_kind default_detector summary) as [r|e] eqn:Hd;
    [|ran Hd].
  exists r. split; [reflexivity|].
  exact (proj1 (fixed_weight_checks_set_the_tier format_fixed repr_kind summary r Hd)
           0 H1 H2).
Defined.

Lemma record_reported_iff_triggered_witness :
  let summary : gmap string pyval := {[ "cpu_usage" := VNum 97 ]} in
  let ru := {| rule_metric := "cpu_usage"; rule_limit := Configured "cpu_usage";
               rule_default := VNone |} in
  ru ∈ scalar_rules ∧
  ∃ r, detect format_fixed repr_kind default_detector summary = Ok r ∧
    (rule_metric ru ∈ Anomaly.metric <$> anomalies r ↔
     triggered default_detector summary ru).
Proof.
  intros summary ru.
  assert (ru ∈ scalar_rules) as Hru
    by (unfold scalar_rules; apply list_elem_of_further, list_elem_of_here).
  split; [exact Hru|].
  destruct (detect format_fixed repr_kind default_detector summary) as [r|e] eqn:Hd;
    [|ran Hd].
  exists r. split; [reflexivity|].
  exact (record_reported_iff_triggered format_fixed repr_kind default_detector summary r ru
           Hd Hru).
Defined.

Lemma check_fs_reports_each_entry_above_witness :
  let l := [ VDict {[ "labels" := VDict {[ "mountpoint" := VStr "/" ]};
                      "value" := VNum 92 ]};
             VDict {[ "labels" := VDict {[ "mountpoint" := VStr "/data" ]};
                      "value" := VNum 60 ]};
             VDict {[ "value" := VNum 99 ]} ] in
  let summary : gmap string pyval := {[ "fs_usage_top3" := VList l ]} in
  summary !! "fs_usage_top3" = Some (VList l) ∧
  Forall (λ fs, entry_ok fs = true) l ∧
  thresholds default_detector !! "disk_usage" = Some 90 ∧
  weights default_detector !! "disk_high" = Some 20 ∧
  ∃ extra score',
    check_fs format_fixed repr_kind default_detector summary ([], 0) =
      Ok ([] ++ extra, score') ∧
    Forall (λ a, Anomaly.metric a = "fs_usage") extra ∧
    Anomaly.value <$> extra = filter (λ v, Qltb 90 v = true) (omap entry_value l) ∧
    score' == 0 +
      Qsum ((λ v, Qmin 20 ((v - 90) / 2)) <$>
            filter (λ v, Qltb 90 v = true) (omap entry_value l)).
Proof.
  intros l summary.
  assert (summary !! "fs_usage_top3" = Some (VList l)) as H1 by (vm_compute; reflexivity).
  assert (Forall (λ fs, entry_ok fs = true) l) as H2
    by (repeat constructor; vm_compute; reflexivity).
  assert (thresholds default_detector !! "disk_usage" = Some 90) as H3
    by (vm_compute; reflexivity).
  assert (weights default_detector !! "disk_high" = Some 20) as H4
    by (vm_compute; reflexivity).
  repeat (split; [assumption|]).
  exact (check_fs_reports_each_entry_above format_fixed repr_kind default_detector
           summary l 90 20 [] 0 H1 H2 H3 H4).
Defined.

Definition demo_client : PrometheusClient :=
  client_init (Some "1") (Some "https://prom.example") (Some "key") None None None.

Lemma execute_queries_keys_and_values_witness :
  let queries := [ ("fs_usage_top3", "topk(3, x)"); ("up", "up") ] in
  NoDup queries.*1 ∧ ("up", "up") ∈ queries ∧
  ∃ results,
    execute_queries parse_decimal byte_item (fetch_one_sample "97.5") demo_client queries
      = Done results ∧
    dom results = list_to_set queries.*1 ∧
    ∃ data v,
      query (fetch_one_sample "97.5") demo_client "up" = Done data ∧
      shape_result parse_decimal byte_item data = Done v ∧
      results !! "up" = Some v.
Proof.
  intros queries.
  assert (NoDup queries.*1) as Hnd by (apply (bool_decide_unpack _); vm_compute; exact I).
  assert (("up", "up") ∈ queries) as Hin by (right; left).
  split; [exact Hnd|]. split; [exact Hin|].
  destruct (execute_queries parse_decimal byte_item (fetch_one_sample "97.5") demo_client
              queries) as [results|e] eqn:Hrun; [|ran Hrun].
  exists results. split; [reflexivity|].
  destruct (execute_queries_keys_and_values parse_decimal byte_item
              (fetch_one_sample "97.5") demo_client queries results Hrun) as [Hdom Hvals].
  split; [exact Hdom|]. exact (Hvals Hnd "up" "up" Hin).
Defined.

Lemma nothing_answers (client : PrometheusClient) (queries : list (string * string)) :
  ∀ q, q ∈ queries.*2 → query_fails fetch_nothing client q.
Proof. intros q _. exact I. Defined.

Lemma execute_queries_survives_outage_witness :
  (∀ q, q ∈ SUMMARY_QUERIES.*2 → query_fails fetch_nothing demo_client q) ∧
  ∃ results,
    execute_queries parse_decimal byte_item fetch_nothing demo_client SUMMARY_QUERIES
      = Done results ∧
    ∀ name, name ∈ SUMMARY_QUERIES.*1 → results !! name = Some VNone.
Proof.
  split; [exact (nothing_answers demo_client SUMMARY_QUERIES)|].
  exact (execute_queries_survives_outage parse_decimal byte_item fetch_nothing demo_client
           SUMMARY_QUERIES (nothing_answers demo_client SUMMARY_QUERIES)).
Defined.



Lemma outage_makes_detect_raise_witness :
  (∀ q, q ∈ SUMMARY_QUERIES.*2 → query_fails fetch_nothing demo_client q) ∧
  (∀ k, k ∈ summary_fields → k ∈ SUMMARY_QUERIES.*1) ∧
  ∃ summary,
    execute_queries parse_decimal byte_item fetch_nothing demo_client SUMMARY_QUERIES
      = Done summary ∧
    ∀ self, detect format_fixed repr_kind self summary = Raise TypeError.
Proof.
  split; [exact (nothing_answers demo_client SUMMARY_QUERIES)|].
  split; [exact summary_fields_are_queried|].
  exact (outage_makes_detect_raise format_fixed repr_kind parse_decimal byte_item
           fetch_nothing demo_client SUMMARY_QUERIES
           (nothing_answers demo_client SUMMARY_QUERIES) summary_fields_are_queried).
Defined.

Lemma shape_result_of_vector_witness :
  let ss : list (gmap string pyval * pyval * string) :=
    [ ({[ "mountpoint" := VStr "/" ]}, VNum 1700000000, "92.5");
      ({[ "mountpoint" := VStr "/data" ]}, VNum 1700000000, "60") ] in
  let d : gmap string pyval := {[ "result" := VList (sample <$> ss) ]} in
  d !! "result" = Some (VList (sample <$> ss)) ∧
  Forall (λ s, is_Some (parse_decimal s.2)) ss ∧
  shape_result parse_decimal byte_item (VDict d) =
    Done (VList (stored_entry parse_decimal <$> ss)) ∧
  Forall (λ s, entry_ok (stored_entry parse_decimal s) = true ∧
               entry_value (stored_entry parse_decimal s) = parse_decimal s.2) ss.
Proof.
  intros ss d.
  assert (d !! "result" = Some (VList (sample <$> ss))) as H1 by (vm_compute; reflexivity).
  assert (Forall (λ s, is_Some (parse_decimal s.2)) ss) as H2
    by (repeat constructor; vm_compute; eexists; reflexivity).
  split; [exact H1|]. split; [exact H2|].
  exact (shape_result_of_vector parse_decimal byte_item d ss H1 H2).
Defined.

Lemma single_series_fs_is_not_checked_witness :
  let queries := [ ("fs_usage_top3", "topk(3, x)") ] in
  let s : gmap string pyval * pyval * string := (∅, VNum 0, "97.5") in
  let d : gmap string pyval := {[ "result" := VList [sample s] ]} in
  let summary : gmap string pyval := {[ "fs_usage_top3" := VNum 97.5 ]} in
  NoDup queries.*1 ∧
  ("fs_usage_top3", "topk(3, x)") ∈ queries ∧
  execute_queries parse_decimal byte_item (fetch_one_sample "97.5") demo_client queries
    = Done summary ∧
  query (fetch_one_sample "97.5") demo_client "topk(3, x)" = Done (VDict d) ∧
  d !! "result" = Some (VList [sample s]) ∧
  is_Some (parse_decimal s.2) ∧
  summary !! "fs_usage_top3" = Some (VNum (default 0 (parse_decimal s.2))) ∧
  ∀ self r, detect format_fixed repr_kind self summary = Ok r →
            "fs_usage" ∉ Anomaly.metric <$> anomalies r.
Proof.
  intros queries s d summary.
  assert (NoDup queries.*1) as H1 by (apply (bool_decide_unpack _); vm_compute; exact I).
  assert (("fs_usage_top3", "topk(3, x)") ∈ queries) as H2 by left.
  assert (execute_queries parse_decimal byte_item (fetch_one_sample "97.5") demo_client
            queries = Done summary) as H3 by (vm_compute; reflexivity).
  assert (query (fetch_one_sample "97.5") demo_client "topk(3, x)" = Done (VDict d)) as H4
    by (vm_compute; reflexivity).
  assert (d !! "result" = Some (VList [sample s])) as H5 by (vm_compute; reflexivity).
  assert (is_Some (parse_decimal s.2)) as H6 by (vm_compute; eexists; reflexivity).
  repeat (split; [assumption|]).
  exact (single_series_fs_is_not_checked format_fixed repr_kind parse_decimal byte_item
           (fetch_one_sample "97.5") demo_client queries summary d "topk(3, x)" s
           H1 H2 H3 H4 H5 H6).
Defined.

Lemma execute_queries_stores_three_shapes_witness :
  let queries := [ ("fs_usage_top3", "topk(3, x)"); ("up", "up") ] in
  ∃ results,
    execute_queries parse_decimal byte_item (fetch_one_sample "97.5") demo_client queries
      = Done results ∧
    map_Forall (λ _ v, stored_shape v) results.
Proof.
  intros queries.
  destruct (execute_queries parse_decimal byte_item (fetch_one_sample "97.5") demo_client
              queries) as [results|e] eqn:Hrun; [|ran Hrun].
  exists results. split; [reflexivity|].
  exact (execute_queries_stores_three_shapes parse_decimal byte_item
           (fetch_one_sample "97.5") demo_client queries results Hrun).
Defined.


Lemma validate_config_then_client_witness :
  let I := Some "123456" in
  let P := Some "https://prom.example" in
  let A := Some "key" in
  (validate_config I P A).1 = true ∧
  ∃ p, P = Some p ∧ p ≠ "" ∧
       query_url (client_init I P A None None None) = p +:+ "/api/v1/query".
Proof.
  intros I P A.
  assert ((validate_config I P A).1 = true) as H by (vm_compute; reflexivity).
  split; [exact H|].
  exact (proj1 (proj2 (validate_config_then_client I P A)) H).
Defined.

Lemma main_exit_code_witness :
  (validate_config None (Some "https://prom.example") (Some "")).1 = false ∧
  main format_fixed repr_kind parse_decimal byte_item fetch_nothing analyze_nothing
    ["main.py"] None (Some "https://prom.example") (Some "") = Done 1%Z.
Proof.
  assert ((validate_config None (Some "https://prom.example") (Some "")).1 = false) as H
    by (vm_compute; reflexivity).
  split; [exact H|].
  exact (proj1 (main_exit_code format_fixed repr_kind parse_decimal byte_item fetch_nothing
                  analyze_nothing ["main.py"] None (Some "https://prom.example") (Some ""))
           H).
Defined.

Lemma main_crashes_on_outage_witness :
  let I := Some "123456" in
  let P := Some "https://prom.example" in
  let A := Some "key" in
  (validate_config I P A).1 = true ∧
  (∀ q, q ∈ SUMMARY_QUERIES.*2 →
        query_fails fetch_nothing (client_init I P A None None None) q) ∧
  main format_fixed repr_kind parse_decimal byte_item fetch_nothing analyze_nothing
    ["main.py"] I P A = Fail (Std TypeError).
Proof.
  intros I P A.
  assert ((validate_config I P A).1 = true) as H by (vm_compute; reflexivity).
  split; [exact H|].
  split; [exact (nothing_answers (client_init I P A None None None) SUMMARY_QUERIES)|].
  exact (main_crashes_on_outage format_fixed repr_kind parse_decimal byte_item
           fetch_nothing analyze_nothing ["main.py"] I P A H
           (nothing_answers (client_init I P A None None None) SUMMARY_QUERIES)).
Defined.

